(** * MeetSpot: configuration resolution and server bootstrap

    A shallow embedding of [app/config_simple.py] (the singleton [Config]
    and its resolution chain: environment, then [config/config.toml], then
    an environment-only fallback) and of [web_server.py] (the [main] entry
    point that picks a port and a deployment mode and starts uvicorn).

    Python dictionaries ([os.environ], parsed TOML tables) are finite maps;
    exceptions are values of [exn] threaded through a small state and error
    monad that also collects what is printed; the singleton is explicit
    process state.

    What lies outside the two files is an input of the model: the content
    of the environment and of the configuration file as [tomllib] parses
    it, the outcome of the imports and of [uvicorn.run], pydantic's
    validator for [str] fields, [int] on strings, and the standard output
    that [print] writes to, which may refuse a line.  Execution is
    sequential (the lock of [Config] is not modelled). *)

From Stdlib Require Import ZArith Ascii String List Floats.
From stdpp Require Import gmap strings list fin_maps.

Set Warnings "-register-all".
Open Scope string_scope.
Open Scope list_scope.

(** ** The Python runtime as far as the two files use it *)
Module Py.

(** Exception classes that occur in the two files or that their library
    calls raise.  Only membership in [Exception] and in [ImportError] is ever
    consulted (by the [except] clauses). *)
Inductive exn_class : Type :=
| ValueError | TOMLDecodeError | ValidationError | UnicodeEncodeError
| OSError | FileNotFoundError
| AttributeError | TypeError
| ImportError | ModuleNotFoundError
| RuntimeError | OverflowError
| KeyboardInterrupt | SystemExit.

(** [issubclass(c, Exception)]: everything but the two classes that derive
    from [BaseException] directly. *)
Definition is_Exception (c : exn_class) : bool :=
  match c with
  | KeyboardInterrupt | SystemExit => false
  | _ => true
  end.

(** [issubclass(c, ImportError)]. *)
Definition is_ImportError (c : exn_class) : bool :=
  match c with
  | ImportError | ModuleNotFoundError => true
  | _ => false
  end.

(** An exception instance.  [Raised] carries the message it was built with
    (a [raise] of the source, or a library call whose outcome the
    environment fixes); the others are raised by the interpreter or by
    pydantic, and keep what they are about instead of a rendered text. *)
Inductive exn : Type :=
| Raised (cls : exn_class) (msg : string)
| NoAttribute (type_name attr : string)        (* v.attr on a value without attr *)
| NotAMapping (callee type_name : string)      (* callee called with ** on v, v not a mapping *)
| Invalid (model : string) (fields : list string) (* pydantic: these fields failed *)
| InvalidLiteral (s : string)                  (* int(s), s not an integer literal *)
| Unencodable (codec : string)                 (* print: codec cannot encode the text *)
| SysExit (code : Z).                          (* sys.exit(code) *)

Definition class_of (e : exn) : exn_class :=
  match e with
  | Raised c _ => c
  | NoAttribute _ _ => AttributeError
  | NotAMapping _ _ => TypeError
  | Invalid _ _ => ValidationError
  | InvalidLiteral _ => ValueError
  | Unencodable _ => UnicodeEncodeError
  | SysExit _ => SystemExit
  end.

(** What one call of [print] writes: the pieces of the (f-)string passed
    to it.  The text of an exception may itself run over several lines. *)
Inductive fpart : Type :=
| Lit (s : string)
| FExn (e : exn)      (* {e}: str(e) *)
| FInt (n : Z).       (* {n}: the decimal rendering of an int *)

Definition line : Type := list fpart.

(** The standard output as [print] finds it: the exception that writing a
    line raises, if any (a [UnicodeEncodeError] when its encoding cannot
    represent the text, an [OSError] when it is closed). *)
Class Stdout : Type := {
  stdout_rejects : line -> option exn
}.

(** A standard output that takes every line, as one encoded in UTF-8 does. *)
Definition stdout_accepts : Stdout := {| stdout_rejects := fun _ => None |}.

(** A standard output encoded in ASCII (as under [PYTHONIOENCODING=ascii]):
    it refuses a line that has a character outside ASCII in a literal piece
    or in the message an exception carries; the exceptions that carry no
    text are taken to render in ASCII. *)
Definition ascii_only (s : string) : bool :=
  forallb (fun c => (N_of_ascii c <? 128)%N) (list_ascii_of_string s).

Definition part_ascii (f : fpart) : bool :=
  match f with
  | Lit s => ascii_only s
  | FExn (Raised _ msg) => ascii_only msg
  | FExn _ => true
  | FInt _ => true
  end.

Definition stdout_ascii : Stdout :=
  {| stdout_rejects := fun l =>
       if forallb part_ascii l then None else Some (Unencodable "ascii") |}.

(** Computations over a mutable state [S] that may raise and may print:
    the outcome, the state left behind (also when an exception leaves the
    computation) and the lines written to standard output, oldest first. *)
Definition M (S A : Type) : Type := S -> (exn + A) * S * list line.

Definition ret {S A} (a : A) : M S A := fun s => (inr a, s, []).
Definition raise {S A} (e : exn) : M S A := fun s => (inl e, s, []).
Definition print `{Stdout} {S} (l : line) : M S unit :=
  fun s =>
    match stdout_rejects l with
    | Some e => (inl e, s, [])
    | None => (inr tt, s, [l])
    end.
Definition get {S} : M S S := fun s => (inr s, s, []).

Definition bind {S A B} (m : M S A) (k : A -> M S B) : M S B :=
  fun s =>
    match m s with
    | (inl e, s1, out) => (inl e, s1, out)
    | (inr a, s1, out) => let '(r, s2, out') := k a s1 in (r, s2, out ++ out')
    end.

(** [try: m except C as e: h e], where [catches e] is [isinstance(e, C)]. *)
Definition try_except {S A} (m : M S A) (catches : exn -> bool)
    (h : exn -> M S A) : M S A :=
  fun s =>
    match m s with
    | (inl e, s1, out) =>
        if catches e then let '(r, s2, out') := h e s1 in (r, s2, out ++ out')
        else (inl e, s1, out)
    | (inr a, s1, out) => (inr a, s1, out)
    end.

(** A [try] statement with several [except] clauses: the first clause
    whose class test accepts the exception handles it. *)
Fixpoint handler_for {S A} (clauses : list ((exn -> bool) * (exn -> M S A)))
    (e : exn) : option (M S A) :=
  match clauses with
  | [] => None
  | (catches, h) :: rest => if catches e then Some (h e) else handler_for rest e
  end.

Definition try_excepts {S A} (m : M S A)
    (clauses : list ((exn -> bool) * (exn -> M S A))) : M S A :=
  fun s =>
    match m s with
    | (inl e, s1, out) =>
        match handler_for clauses e with
        | Some h => let '(r, s2, out') := h s1 in (r, s2, out ++ out')
        | None => (inl e, s1, out)
        end
    | (inr a, s1, out) => (inr a, s1, out)
    end.

(** A computation that only fails or returns. *)
Definition lift {S A} (r : exn + A) : M S A := fun s => (r, s, []).

(** [os.getenv(k)] is [env !! k]; [os.getenv(k, d)] is [getenv_or env k d]. *)
Definition getenv_or (env : gmap string string) (k d : string) : string :=
  default d (env !! k).

(** Truth value of [os.getenv(k)]: set, and not the empty string. *)
Definition getenv_truthy (env : gmap string string) (k : string) : bool :=
  match env !! k with
  | Some s => negb (String.eqb s "")
  | None => false
  end.

End Py.

Declare Scope py_scope.
Delimit Scope py_scope with py.
Notation "x <~ m ;; k" := (Py.bind m (fun x => k))
  (at level 100, m at next level, right associativity) : py_scope.
Notation "m ;;; k" := (Py.bind m (fun _ => k))
  (at level 100, right associativity) : py_scope.

(** ** app/config_simple.py *)
Module ConfigSimple.
Import Py.
Local Open Scope py_scope.

(** What [tomllib.load] builds: the Python value of each TOML value.  Dates
    and times keep their text; only their type and their truth value (always
    true) matter. *)
Inductive toml_value : Type :=
| TStr (s : string)
| TInt (n : Z)
| TFloat (f : float)
| TBool (b : bool)
| TDatetime (lexeme : string)
| TDate (lexeme : string)
| TTime (lexeme : string)
| TArray (l : list toml_value)
| TTable (t : gmap string toml_value).

(** [type(v).__name__]. *)
Definition type_name (v : toml_value) : string :=
  match v with
  | TStr _ => "str"
  | TInt _ => "int"
  | TFloat _ => "float"
  | TBool _ => "bool"
  | TDatetime _ => "datetime"
  | TDate _ => "date"
  | TTime _ => "time"
  | TArray _ => "list"
  | TTable _ => "dict"
  end.

(** [bool(v)], as [not v] evaluates it. *)
Definition truthy (v : toml_value) : bool :=
  match v with
  | TStr s => negb (String.eqb s "")
  | TInt n => negb (n =? 0)%Z
  | TFloat f => negb (PrimFloat.eqb f 0%float)
  | TBool b => b
  | TDatetime _ | TDate _ | TTime _ => true
  | TArray l => match l with [] => false | _ :: _ => true end
  | TTable t => negb (bool_decide (t = ∅))
  end.

(** [d.get(k)] on a value [d]: a lookup when [d] is a dict ([None] for a
    missing key), [AttributeError] otherwise, no other TOML value having a
    [get] attribute. *)
Definition dict_get {S} (d : toml_value) (k : string) : M S (option toml_value) :=
  match d with
  | TTable t => ret (t !! k)
  | _ => raise (NoAttribute (type_name d) "get")
  end.

(** The keyword arguments that a call [callee( ** d)] passes: the entries of
    [d] when it is a dict, [TypeError] otherwise. *)
Definition kwargs {S} (callee : string) (d : toml_value)
    : M S (gmap string toml_value) :=
  match d with
  | TTable t => ret t
  | _ => raise (NotAMapping callee (type_name d))
  end.

(** The three pydantic models. *)
Record AMapSettings : Type := {
  api_key : string;
  security_js_code : option string
}.

Record LogSettings : Type := {
  level : string;
  file_path : string
}.

Record AppConfig : Type := {
  amap : AMapSettings;
  log : option LogSettings
}.

(** [LogSettings()]: both fields at their defaults. *)
Definition LogSettings_default : LogSettings :=
  {| level := "INFO"; file_path := "logs/meetspot.log" |}.

(** pydantic's validator of a field annotated [str].  Which non-string
    inputs it coerces depends on the pydantic release, so it is an
    interface; a string input is returned as it is in every release. *)
Class Pydantic : Type := {
  str_validator : toml_value -> option string;
  str_validator_str : forall s, str_validator (TStr s) = Some s
}.

(** The validator that accepts strings only (pydantic 2). *)
Definition str_only (v : toml_value) : option string :=
  match v with
  | TStr s => Some s
  | _ => None
  end.

#[export] Instance pydantic_strict : Pydantic :=
  {| str_validator := str_only; str_validator_str := fun s => eq_refl |}.

(** What [open] and [tomllib.load] make of the configuration file. *)
Inductive file_content : Type :=
| Unreadable (msg : string)                   (* open raises OSError *)
| Malformed (msg : string)                    (* tomllib.load raises TOMLDecodeError *)
| Loaded (toml_data : gmap string toml_value).

(** The environment a resolution runs in: [os.environ]; [config_path], the
    text of [PROJECT_ROOT / "config" / "config.toml"]; and the file at that
    path, [None] when [config_path.exists()] is false. *)
Record World : Type := {
  environ : gmap string string;
  config_path : string;
  config_toml : option file_content
}.

(** The singleton's instance attributes.  Before [__init__] has run the
    instance has none of its own: [_initialized] then reads the class
    attribute ([False]) and [_config] holds no settings. *)
Record Config : Type := {
  _config : option AppConfig;
  _initialized : bool
}.

(** The class attribute [Config._instance]. *)
Record Process : Type := {
  _instance : option Config
}.

Definition set_config (c : option AppConfig) : M Config unit :=
  fun self => (inr tt, {| _config := c; _initialized := _initialized self |}, []).

Definition set_initialized (b : bool) : M Config unit :=
  fun self => (inr tt, {| _config := _config self; _initialized := b |}, []).

Definition present {A} (o : option A) : bool :=
  match o with
  | Some _ => true
  | None => false
  end.

(** The keywords that the file gives for [LogSettings]: those of its [log]
    table, none when it has no such key, and no answer when [log] is not a
    table. *)
Definition log_kwargs (t : gmap string toml_value)
    : option (gmap string toml_value) :=
  match t !! "log" with
  | None => Some ∅
  | Some (TTable l) => Some l
  | Some _ => None
  end.

(** Calls that the application makes on the module after importing it,
    each paired, in a run, with the environment of its moment. *)
Inductive call : Type :=
| GetSettings
| Reload.

Section Resolution.
Context `{Pydantic} `{Stdout}.

(** A field annotated [str] with no default: missing or invalid is an error. *)
Definition required_str (kw : gmap string toml_value) (k : string)
    : option string :=
  kw !! k ≫= str_validator.

(** A field with default [d]: the default when the keyword is absent, the
    validated input otherwise. *)
Definition defaulted_str {A} (kw : gmap string toml_value) (k : string)
    (d : A) (wrap : string -> A) : option A :=
  match kw !! k with
  | None => Some d
  | Some v => wrap <$> str_validator v
  end.

Definition failed {A} (k : string) (o : option A) : list string :=
  match o with
  | None => [k]
  | Some _ => []
  end.

(** [AMapSettings( ** kw)]: keywords naming no field are ignored. *)
Definition AMapSettings_new {S} (kw : gmap string toml_value)
    : M S AMapSettings :=
  match required_str kw "api_key",
        defaulted_str kw "security_js_code" None Some with
  | Some k, Some sc => ret {| api_key := k; security_js_code := sc |}
  | a, b =>
      raise (Invalid "AMapSettings"
               (failed "api_key" a ++ failed "security_js_code" b))
  end.

(** [LogSettings( ** kw)]. *)
Definition LogSettings_new {S} (kw : gmap string toml_value)
    : M S LogSettings :=
  match defaulted_str kw "level" "INFO" id,
        defaulted_str kw "file_path" "logs/meetspot.log" id with
  | Some l, Some f => ret {| level := l; file_path := f |}
  | a, b =>
      raise (Invalid "LogSettings" (failed "level" a ++ failed "file_path" b))
  end.

(** Lines 66-71 and, word for word, lines 94-99: the settings built from
    the two environment variables, [log] left to its default. *)
Definition config_from_env (w : World) : M Config unit :=
  a <~ AMapSettings_new
         {[ "api_key" := TStr (getenv_or (environ w) "AMAP_API_KEY" "");
            "security_js_code" :=
              TStr (getenv_or (environ w) "AMAP_SECURITY_JS_CODE" "") ]} ;;
  set_config (Some {| amap := a; log := Some LogSettings_default |}).

(** Lines 77-78: [open] and [tomllib.load]. *)
Definition load_toml (f : file_content) : M Config (gmap string toml_value) :=
  match f with
  | Unreadable msg => raise (Raised OSError msg)
  | Malformed msg => raise (Raised TOMLDecodeError msg)
  | Loaded toml_data => ret toml_data
  end.

(** The body of the [try] statement, lines 64-89. *)
Definition try_body (w : World) : M Config unit :=
  if getenv_truthy (environ w) "AMAP_API_KEY" then config_from_env w
  else
    match config_toml w with
    | Some f =>
        toml_data <~ load_toml f ;;
        let amap_config := default (TTable ∅) (toml_data !! "amap") in
        key <~ dict_get amap_config "api_key" ;;
        if negb (from_option truthy false key) then
          raise (Raised ValueError "高德地图API密钥未配置")
        else
          kw <~ kwargs "AMapSettings" amap_config ;;
          a <~ AMapSettings_new kw ;;
          kw' <~ kwargs "LogSettings" (default (TTable ∅) (toml_data !! "log")) ;;
          l <~ LogSettings_new kw' ;;
          set_config (Some {| amap := a; log := Some l |})
    | None =>
        raise (Raised FileNotFoundError ("配置文件不存在: " +:+ config_path w))
    end.

(** The line printed by the handler, line 93. *)
Definition fallback_warning (e : exn) : line :=
  [Lit "配置加载失败，使用默认配置: "; FExn e].

(** [Config._load_initial_config], lines 61-99. *)
Definition _load_initial_config (w : World) : M Config unit :=
  try_except (try_body w)
    (fun e => is_Exception (class_of e))
    (fun e => print (fallback_warning e) ;;; config_from_env w).

(** [Config.__new__], lines 46-51: the instance, made on first use. *)
Definition Config_new (p : Process) : Config :=
  default {| _config := None; _initialized := false |} (_instance p).

(** [Config.__init__], lines 53-59.  The second test of [_initialized],
    under the lock, reads what the first one read in a sequential run. *)
Definition Config_init (w : World) : M Config unit :=
  self <~ get ;;
  if negb (_initialized self) then
    set_config None ;;;
    _load_initial_config w ;;;
    set_initialized true
  else ret tt.

(** [Config.reload], lines 101-106. *)
Definition reload (w : World) : M Config unit :=
  set_initialized false ;;;
  _load_initial_config w ;;;
  set_initialized true.

(** The [amap] and [log] properties, lines 108-116. *)
Definition amap_property : M Config AMapSettings :=
  self <~ get ;;
  match _config self with
  | Some c => ret (amap c)
  | None => raise (NoAttribute "NoneType" "amap")
  end.

Definition log_property : M Config (option LogSettings) :=
  self <~ get ;;
  match _config self with
  | Some c => ret (log c)
  | None => raise (NoAttribute "NoneType" "log")
  end.

(** A method run on the singleton: on the instance that [Config()] hands
    out, which stays registered in [Config._instance]. *)
Definition on_instance {A} (m : M Config A) : M Process A :=
  fun p =>
    let '(r, self, out) := m (Config_new p) in
    (r, {| _instance := Some self |}, out).

(** [Config()]: [__new__], then [__init__] on what it returned. *)
Definition Config_call (w : World) : M Process unit :=
  on_instance (Config_init w).

(** The spec's [get_settings()]: the handle [Config()], read through its
    two properties. *)
Definition get_settings (w : World) : M Process AppConfig :=
  Config_call w ;;;
  a <~ on_instance amap_property ;;
  l <~ on_instance log_property ;;
  ret {| amap := a; log := l |}.

(** The spec's [reload()]: [reload] on the handle that the module keeps
    (its last line, [config = Config()], has run by the time anything can
    call it). *)
Definition reload_settings (w : World) : M Process unit :=
  on_instance (reload w).

(** Settings validation of the file's two tables passes: every field
    given is accepted by its validator, and [log] is a table if present. *)
Definition amap_validates (a : gmap string toml_value) : bool :=
  present (required_str a "api_key")
  && present (defaulted_str a "security_js_code" None Some).

Definition log_validates (t : gmap string toml_value) : bool :=
  match t !! "log" with
  | None => true
  | Some (TTable l) =>
      present (defaulted_str l "level" "INFO" id)
      && present (defaulted_str l "file_path" "logs/meetspot.log" id)
  | Some _ => false
  end.

(** One call, a sequence of calls, and a run: the import of the module,
    which ends in [Config()], then the calls. *)
Definition perform (w : World) (c : call) : M Process unit :=
  match c with
  | GetSettings => get_settings w ;;; ret tt
  | Reload => reload_settings w
  end.

Fixpoint calls (cs : list (World * call)) : M Process unit :=
  match cs with
  | [] => ret tt
  | (w, c) :: cs' => perform w c ;;; calls cs'
  end.

Definition run (w0 : World) (cs : list (World * call)) : M Process unit :=
  Config_call w0 ;;; calls cs.

End Resolution.

(** The state of the class before the module's last line has run. *)
Definition fresh : Process := {| _instance := None |}.

(** The settings that the two environment variables alone give. *)
Definition env_config (w : World) : AppConfig :=
  {| amap :=
       {| api_key := getenv_or (environ w) "AMAP_API_KEY" "";
          security_js_code :=
            Some (getenv_or (environ w) "AMAP_SECURITY_JS_CODE" "") |};
     log := Some LogSettings_default |}.

(** Settings with key [k], security code [sec] and the default log settings. *)
Definition env_only (k sec : string) : AppConfig :=
  {| amap := {| api_key := k; security_js_code := Some sec |};
     log := Some LogSettings_default |}.

Definition with_config (self : Config) (c : AppConfig) : Config :=
  {| _config := Some c; _initialized := _initialized self |}.

(** Whether the handle exists and has been through [__init__]; [Config()]
    runs the resolution chain only when it has not. *)
Definition initialized (p : Process) : bool :=
  from_option _initialized false (_instance p).

(** The instance once a resolution that yielded [c] is complete. *)
Definition built (c : AppConfig) : Config :=
  {| _config := Some c; _initialized := true |}.

Definition holding (c : AppConfig) : Process :=
  {| _instance := Some (built c) |}.

(** The same project and file under another environment. *)
Definition with_environ (w : World) (env : gmap string string) : World :=
  {| environ := env;
     config_path := config_path w;
     config_toml := config_toml w |}.

Definition unbuilt : Config := {| _config := None; _initialized := false |}.

(** What one pass through the resolution chain yields in [w]: the settings
    it assigns and the lines it prints. *)
Definition resolution `{Pydantic} `{Stdout} (w : World)
    : AppConfig * list line :=
  let '(_, s, out) := _load_initial_config w unbuilt in
  (default (env_config w) (_config s), out).

(** *** Concrete environments *)

(** A configuration file with [[amap] api_key = "xyz"] and no [[log]] table. *)
Definition toml_xyz : gmap string toml_value :=
  {[ "amap" := TTable {[ "api_key" := TStr "xyz" ]} ]}.

(** [AMAP_API_KEY=abc123], beside a valid configuration file. *)
Definition world_abc123 : World :=
  {| environ := {[ "AMAP_API_KEY" := "abc123" ]};
     config_path := "/srv/meetspot/config/config.toml";
     config_toml := Some (Loaded toml_xyz) |}.

(** [AMAP_API_KEY] unset, and the same valid file. *)
Definition world_xyz : World :=
  {| environ := ∅;
     config_path := "/srv/meetspot/config/config.toml";
     config_toml := Some (Loaded toml_xyz) |}.

(** The file of [toml_xyz] with [[log] level = ["DEBUG"]] added: an array
    where a string is expected. *)
Definition toml_bad_level : gmap string toml_value :=
  {[ "amap" := TTable {[ "api_key" := TStr "xyz" ]};
     "log" := TTable {[ "level" := TArray [TStr "DEBUG"] ]} ]}.

Definition world_bad_level : World :=
  {| environ := ∅;
     config_path := "/srv/meetspot/config/config.toml";
     config_toml := Some (Loaded toml_bad_level) |}.

(** The file of [toml_xyz] with [log = "verbose"] added: a string where a
    table is expected. *)
Definition toml_bad_log : gmap string toml_value :=
  {[ "amap" := TTable {[ "api_key" := TStr "xyz" ]};
     "log" := TStr "verbose" ]}.

Definition world_bad_log : World :=
  {| environ := ∅;
     config_path := "/srv/meetspot/config/config.toml";
     config_toml := Some (Loaded toml_bad_log) |}.

(** No file and no key, with and without a security code in the
    environment. *)
Definition world_bare : World :=
  {| environ := ∅; config_path := "/srv/meetspot/config/config.toml"; config_toml := None |}.

Definition world_sec : World :=
  {| environ := {[ "AMAP_SECURITY_JS_CODE" := "s3c" ]};
     config_path := "/srv/meetspot/config/config.toml";
     config_toml := None |}.

(** The file of [toml_xyz] with keys that are no fields: a [title] at top
    level, a [region] in [amap], and a [log] table that holds only a
    [rotate] flag. *)
Definition toml_xyz_more : gmap string toml_value :=
  {[ "title" := TStr "MeetSpot";
     "amap" := TTable {[ "api_key" := TStr "xyz"; "region" := TStr "cn" ]};
     "log" := TTable {[ "rotate" := TBool true ]} ]}.

(** A file with [amap = "xyz"], a string where a table is expected, and
    one whose [amap] table gives an array as security code. *)
Definition world_amap_string : World :=
  {| environ := ∅;
     config_path := "/srv/meetspot/config/config.toml";
     config_toml := Some (Loaded {[ "amap" := TStr "xyz" ]}) |}.

Definition toml_bad_code : gmap string toml_value :=
  {[ "amap" := TTable {[ "api_key" := TStr "xyz";
                         "security_js_code" := TArray [] ]};
     "log" := TStr "verbose" ]}.

Definition world_bad_code : World :=
  {| environ := ∅;
     config_path := "/srv/meetspot/config/config.toml";
     config_toml := Some (Loaded toml_bad_code) |}.

(** *** Further vocabulary *)

(** The same environment beside another file. *)
Definition with_file (w : World) (f : option file_content) : World :=
  {| environ := environ w;
     config_path := config_path w;
     config_toml := f |}.

(** The environments in which a run resolves the settings again after the
    import: those of its [reload()] calls, in order. *)
Fixpoint reload_worlds (cs : list (World * call)) : list World :=
  match cs with
  | [] => []
  | (w, Reload) :: cs' => w :: reload_worlds cs'
  | (_, GetSettings) :: cs' => reload_worlds cs'
  end.

(** Two entries of a parsed file that the second step cannot tell apart.
    An entry is read with an empty table as default, so a missing entry
    stands for one; the entries are then the same value, or two tables that
    agree on the keys [ks]. *)
Definition agree_on (ks : list string) (o o' : option toml_value) : Prop :=
  default (TTable ∅) o = default (TTable ∅) o'
  \/ exists a a',
      default (TTable ∅) o = TTable a /\ default (TTable ∅) o' = TTable a'
      /\ Forall (fun k => a' !! k = a !! k) ks.

(** Lines 10-16.  A resolved path is absolute: the names below the root,
    outermost first.  [parent] of the root is the root; [p / name] appends
    a relative name. *)
Definition Path : Type := list string.

Definition parent (p : Path) : Path := removelast p.

Definition joinpath (p : Path) (name : string) : Path := p ++ [name].

(** [get_project_root()], where [file] is [Path(__file__).resolve()]. *)
Definition get_project_root (file : Path) : Path := parent (parent file).

Definition PROJECT_ROOT (file : Path) : Path := get_project_root file.

Definition WORKSPACE_ROOT (file : Path) : Path :=
  joinpath (PROJECT_ROOT file) "workspace".

(** Line 75: [PROJECT_ROOT / "config" / "config.toml"]. *)
Definition config_file (file : Path) : Path :=
  joinpath (joinpath (PROJECT_ROOT file) "config") "config.toml".

End ConfigSimple.

(** ** web_server.py *)
Module WebServer.
Import Py.
Local Open Scope py_scope.

(** The keyword arguments of the call to [uvicorn.run], lines 43-50. *)
Record run_args : Type := {
  app : string;
  host : string;
  port : Z;
  reload : bool;
  log_level : string;
  access_log : bool
}.

(** What [main] does to the world outside it, in order: the modules it
    imports and the server it starts. *)
Inductive effect : Type :=
| Import (module : string)
| UvicornRun (args : run_args).

(** The environment [main] runs in.  An import or the server raises the
    given exception, or returns ([None]); the server returns on shutdown. *)
Record Host : Type := {
  os_environ : gmap string string;
  import_app : option exn;
  import_uvicorn : option exn;
  uvicorn_run : run_args -> option exn
}.

(** An external step: it is logged, then raises or returns as the host
    has it. *)
Definition attempt (f : effect) (outcome : option exn) : M (list effect) unit :=
  fun log =>
    (match outcome with Some e => inl e | None => inr tt end, log ++ [f], []).

(** [s * n]. *)
Fixpoint str_mul (s : string) (n : nat) : string :=
  match n with
  | O => ""
  | S n' => s +:+ str_mul s n'
  end.

(** Python's [int] on text in ASCII, for the examples below: optional
    blanks around an optional sign and decimal digits, single underscores
    allowed between digits, and no more than 4300 digits (the default of
    [sys.int_info.default_max_str_digits]).  The blanks are those of
    [str.isspace] in ASCII text that [int] strips: space, tab, line feed,
    vertical tab, form feed and carriage return.  (The built-in also reads
    digits and blanks outside ASCII; the theorems take [int] as a
    parameter.) *)
Definition is_space (c : ascii) : bool :=
  match c with
  | " "%char | "009"%char | "010"%char | "011"%char | "012"%char | "013"%char =>
      true
  | _ => false
  end.

Definition digit_value (c : ascii) : option Z :=
  let n := Z.of_N (N_of_ascii c) in
  if ((48 <=? n) && (n <=? 57))%Z then Some (n - 48)%Z else None.

Fixpoint digits (acc : Z) (after_digit : bool) (l : list ascii) : option Z :=
  match l with
  | [] => if after_digit then Some acc else None
  | c :: l' =>
      match digit_value c with
      | Some d => digits (10 * acc + d) true l'
      | None =>
          if Ascii.eqb c "_" && after_digit then digits acc false l'
          else None
      end
  end.

Fixpoint lstrip (l : list ascii) : list ascii :=
  match l with
  | c :: l' => if is_space c then lstrip l' else l
  | [] => []
  end.

Definition strip (l : list ascii) : list ascii :=
  rev (lstrip (rev (lstrip l))).

Definition digit_count (l : list ascii) : N :=
  N.of_nat
    (length
       (List.filter
          (fun c => match digit_value c with Some _ => true | None => false end)
          l)).

Definition int_decimal (s : string) : option Z :=
  let l := strip (list_ascii_of_string s) in
  if (4300 <? digit_count l)%N then None
  else
    match l with
    | "-"%char :: l' => Z.opp <$> digits 0 false l'
    | "+"%char :: l' => digits 0 false l'
    | _ => digits 0 false l
    end.

Section Main.
Context `{Stdout}.
(** [int] applied to a string: the integer it denotes, if any. *)
Variable int_of_str : string -> option Z.

(** Line 26, [int(os.environ.get("PORT", 11024))]: the default is already
    an int; a value of the variable goes through [int]. *)
Definition port_of (w : Host) : exn + Z :=
  match os_environ w !! "PORT" with
  | None => inr 11024%Z
  | Some s =>
      match int_of_str s with
      | Some n => inr n
      | None => inl (InvalidLiteral s)
      end
  end.

Definition resolve_port {S} (w : Host) : M S Z := lift (port_of w).

(** Line 29. *)
Definition is_production (w : Host) : bool :=
  match os_environ w !! "RAILWAY_ENVIRONMENT" with
  | Some _ => true
  | None => false
  end.

(** Lines 31-36. *)
Definition banner (production : bool) (port : Z) : list line :=
  if production then
    [ [Lit "🚀 启动 MeetSpot 生产服务器 (Railway)..."];
      [Lit "📍 服务端口: "; FInt port] ]
  else
    [ [Lit "🚀 启动 MeetSpot 本地开发服务器..."];
      [Lit "📍 服务地址: http://localhost:"; FInt port] ].

(** Lines 38-40. *)
Definition pointers : list line :=
  [ [Lit "📚 API文档: /docs"];
    [Lit "🔧 健康检查: /health"];
    [Lit (str_mul "=" 50)] ].

Fixpoint print_all {S} (ls : list line) : M S unit :=
  match ls with
  | [] => ret tt
  | l :: ls' => print l ;;; print_all ls'
  end.

(** What [print_all] gets written: the lines up to the first one that
    the standard output refuses, and the exception of that one. *)
Fixpoint written (ls : list line) : list line * option exn :=
  match ls with
  | [] => ([], None)
  | l :: ls' =>
      match stdout_rejects l with
      | Some e => ([], Some e)
      | None => let '(out, r) := written ls' in (l :: out, r)
      end
  end.

Definition server_args (w : Host) (p : Z) : run_args :=
  {| app := "api.index:app";
     host := "0.0.0.0";
     port := p;
     reload := negb (is_production w);
     log_level := "info";
     access_log := true |}.

(** The body of the [try] statement, lines 21-50. *)
Definition startup (w : Host) : M (list effect) unit :=
  attempt (Import "api.index") (import_app w) ;;;
  attempt (Import "uvicorn") (import_uvicorn w) ;;;
  p <~ resolve_port w ;;
  print_all (banner (is_production w) p) ;;;
  print_all pointers ;;;
  attempt (UvicornRun (server_args w p)) (uvicorn_run w (server_args w p)).

(** Lines 52-55 and 56-58. *)
Definition on_import_error (e : exn) : M (list effect) unit :=
  print [Lit "❌ 导入错误: "; FExn e] ;;;
  print [Lit "请确保已安装所有依赖: pip install -r requirements.txt"] ;;;
  raise (SysExit 1).

Definition on_exception (e : exn) : M (list effect) unit :=
  print [Lit "❌ 启动失败: "; FExn e] ;;;
  raise (SysExit 1).

(** [main], lines 18-58. *)
Definition main (w : Host) : M (list effect) unit :=
  try_excepts (startup w)
    [ (fun e => is_ImportError (class_of e), on_import_error);
      (fun e => is_Exception (class_of e), on_exception) ].

End Main.

(** The exit status of the process that ran [main()] as its last
    statement: 0 when it returned, the argument of [sys.exit] when that was
    called; the status after any other exception that reaches the top level
    is not described here. *)
Definition exit_status (r : exn + unit) : option Z :=
  match r with
  | inr tt => Some 0%Z
  | inl (SysExit n) => Some n
  | inl _ => None
  end.

(** What the handler that takes [e] prints. *)
Definition diagnostic (e : exn) : list line :=
  if is_ImportError (class_of e) then
    [ [Lit "❌ 导入错误: "; FExn e];
      [Lit "请确保已安装所有依赖: pip install -r requirements.txt"] ]
  else
    [ [Lit "❌ 启动失败: "; FExn e] ].

Definition served (log : list effect) : list run_args :=
  omap (fun f => match f with UvicornRun a => Some a | Import _ => None end) log.

(** *** Concrete environments *)

Definition server_quiet (a : run_args) : option exn := None.

(** Nothing set: a local run on the default port. *)
Definition host_local : Host :=
  {| os_environ := ∅;
     import_app := None;
     import_uvicorn := None;
     uvicorn_run := server_quiet |}.

(** On Railway, with [PORT=8080]. *)
Definition host_railway : Host :=
  {| os_environ := {[ "PORT" := "8080"; "RAILWAY_ENVIRONMENT" := "production" ]};
     import_app := None;
     import_uvicorn := None;
     uvicorn_run := server_quiet |}.

(** [PORT=eighty]. *)
Definition host_bad_port : Host :=
  {| os_environ := {[ "PORT" := "eighty" ]};
     import_app := None;
     import_uvicorn := None;
     uvicorn_run := server_quiet |}.

(** A dependency of the application is not installed. *)
Definition host_no_fastapi : Host :=
  {| os_environ := ∅;
     import_app := Some (Raised ModuleNotFoundError "No module named 'fastapi'");
     import_uvicorn := None;
     uvicorn_run := server_quiet |}.

(** The server gives up with [sys.exit(3)] once it has been started. *)
Definition host_exit3 : Host :=
  {| os_environ := ∅;
     import_app := None;
     import_uvicorn := None;
     uvicorn_run := fun _ => Some (SysExit 3) |}.

(** Importing the application raises at its top level, and PORT is no
    integer either. *)
Definition host_broken_app : Host :=
  {| os_environ := {[ "PORT" := "eighty" ]};
     import_app := Some (Raised RuntimeError "settings are incomplete");
     import_uvicorn := None;
     uvicorn_run := server_quiet |}.

End WebServer.

(** ** Resolution of the settings: facts and claims *)
Module ConfigSimpleProofs.
Import Py ConfigSimple.
Local Open Scope py_scope.

(** The facts and claims of this module are about a standard output that
    takes every line; what becomes of a line that it refuses is the subject
    of [ConfigSimpleOutput]. *)
#[local] Existing Instance stdout_accepts.

Section ConfigFacts.
Context `{Pydantic}.

Lemma config_from_env_eq (w : World) (self : Config) :
  config_from_env w self = (inr tt, with_config self (env_config w), []).
Proof.
  unfold config_from_env, bind, AMapSettings_new, required_str, defaulted_str.
  simplify_map_eq. rewrite !str_validator_str. reflexivity.
Qed.

(** Whatever leaves the [try] body is an [Exception], raised before
    anything was assigned or printed. *)
Lemma try_body_raises (w : World) (self s : Config) (e : exn) (out : list line) :
  try_body w self = (inl e, s, out) ->
  is_Exception (class_of e) = true /\ s = self /\ out = [].
Proof.
  unfold try_body.
  destruct (getenv_truthy _ _); [rewrite config_from_env_eq; discriminate |].
  destruct (config_toml w) as [[msg | msg | toml_data] |]; cbn;
    try (intros [= <- <- <-]; done).
  unfold bind, dict_get, kwargs, AMapSettings_new, LogSettings_new,
    set_config, raise, ret.
  intros Hrun.
  repeat (case_match; cbn in *; simplify_eq; try done).
Qed.

(** When the body returns, it has assigned some settings and printed
    nothing. *)
Lemma try_body_returns (w : World) (self s : Config) (out : list line) :
  try_body w self = (inr tt, s, out) ->
  (exists c, s = with_config self c) /\ out = [].
Proof.
  unfold try_body.
  destruct (getenv_truthy _ _);
    [rewrite config_from_env_eq; intros [= <- <-]; eauto |].
  destruct (config_toml w) as [[msg | msg | toml_data] |]; cbn; try discriminate.
  unfold bind, dict_get, kwargs, AMapSettings_new, LogSettings_new,
    set_config, raise, ret.
  intros Hrun.
  repeat (case_match; cbn in *; simplify_eq; try done); eauto.
Qed.

(** The chain as a whole: an exception of the body is caught, the warning
    is printed and the environment alone decides; otherwise the body's
    assignment stands. *)
Lemma load_initial_config_cases (w : World) (self : Config) :
  match try_body w self with
  | (inl e, _, _) =>
      _load_initial_config w self
      = (inr tt, with_config self (env_config w), [fallback_warning e])
  | (inr _, s, _) =>
      _load_initial_config w self = (inr tt, s, [])
      /\ exists c, s = with_config self c
  end.
Proof.
  unfold _load_initial_config, try_except.
  destruct (try_body w self) as [[[e | []] s] out] eqn:Hbody.
  - apply try_body_raises in Hbody as (-> & -> & ->).
    unfold bind, print. cbn [stdout_rejects stdout_accepts].
    rewrite config_from_env_eq. reflexivity.
  - apply try_body_returns in Hbody as ([c ->] & ->). eauto.
Qed.

(** The body does not read the instance it runs on. *)
Lemma try_body_self (w : World) (self : Config) :
  try_body w self
  = match try_body w unbuilt with
    | (r, s, out) =>
        (r, {| _config := match r with inl _ => _config self | inr _ => _config s end;
               _initialized := _initialized self |}, out)
    end.
Proof.
  destruct self as [cfg ini]. unfold try_body.
  destruct (getenv_truthy _ _); [by rewrite !config_from_env_eq |].
  destruct (config_toml w) as [[msg | msg | toml_data] |]; cbn; try done.
  unfold bind, dict_get, kwargs, AMapSettings_new, LogSettings_new,
    set_config, raise, ret.
  repeat (case_match; cbn in *; simplify_eq; try done).
Qed.

Lemma load_initial_config_eq (w : World) (self : Config) :
  _load_initial_config w self
  = (inr tt, with_config self (resolution w).1, (resolution w).2).
Proof.
  unfold resolution.
  pose proof (load_initial_config_cases w self) as Hself.
  pose proof (load_initial_config_cases w unbuilt) as Hun.
  rewrite (try_body_self w self) in Hself.
  destruct (try_body w unbuilt) as [[[e | []] s] out]; cbn in *.
  - by rewrite Hself, Hun.
  - destruct Hself as [-> _], Hun as [-> [c ->]]. reflexivity.
Qed.

Lemma Config_init_eq (w : World) (self : Config) :
  Config_init w self
  = if _initialized self then (inr tt, self, [])
    else (inr tt, built (resolution w).1, (resolution w).2).
Proof.
  unfold Config_init, bind, get. destruct (_initialized self) eqn:Hini; cbn.
  - reflexivity.
  - unfold bind, set_config. rewrite load_initial_config_eq. cbn.
    by rewrite app_nil_r.
Qed.

Lemma reload_eq (w : World) (self : Config) :
  reload w self = (inr tt, built (resolution w).1, (resolution w).2).
Proof.
  unfold reload, bind, set_initialized. rewrite load_initial_config_eq. cbn.
  by rewrite app_nil_r.
Qed.

Lemma get_settings_first (w : World) (p : Process) :
  initialized p = false ->
  get_settings w p
  = (inr (resolution w).1, holding (resolution w).1, (resolution w).2).
Proof.
  unfold initialized, get_settings, Config_call, on_instance, bind, Config_new.
  intros Hini. rewrite Config_init_eq.
  destruct (_instance p) as [self |]; cbn in *; [rewrite Hini |]; cbn;
    destruct (resolution w) as [[a l] out]; cbn; by rewrite !app_nil_r.
Qed.

Lemma get_settings_held (w : World) (c : AppConfig) :
  get_settings w (holding c) = (inr c, holding c, []).
Proof. by destruct c. Qed.

Lemma reload_settings_eq (w : World) (p : Process) :
  reload_settings w p = (inr tt, holding (resolution w).1, (resolution w).2).
Proof.
  unfold reload_settings, on_instance. by rewrite reload_eq.
Qed.

Lemma Config_call_fresh (w : World) :
  Config_call w fresh = (inr tt, holding (resolution w).1, (resolution w).2).
Proof. unfold Config_call, on_instance. by rewrite Config_init_eq. Qed.

Lemma resolution_cases (w : World) :
  match try_body w unbuilt with
  | (inl e, _, _) => resolution w = (env_config w, [fallback_warning e])
  | (inr _, s, _) => exists c, _config s = Some c /\ resolution w = (c, [])
  end.
Proof.
  unfold resolution.
  pose proof (load_initial_config_cases w unbuilt) as Hun.
  destruct (try_body w unbuilt) as [[[e | []] s] out].
  - by rewrite Hun.
  - destruct Hun as [-> [c ->]]. by exists c.
Qed.

Lemma getenv_truthy_Some (env : gmap string string) (k v : string) :
  env !! k = Some v -> v <> "" -> getenv_truthy env k = true.
Proof.
  unfold getenv_truthy. intros -> Hv.
  by destruct (String.eqb_spec v "").
Qed.

Lemma getenv_truthy_false (env : gmap string string) (k : string) :
  env !! k = None \/ env !! k = Some "" -> getenv_truthy env k = false.
Proof. unfold getenv_truthy. by intros [-> | ->]. Qed.

Lemma getenv_falsy_or (env : gmap string string) (k : string) :
  getenv_truthy env k = false -> getenv_or env k "" = "".
Proof.
  unfold getenv_truthy, getenv_or. destruct (env !! k) as [v |]; [| done].
  cbn. by destruct (String.eqb_spec v "").
Qed.

Lemma env_config_key (w : World) (k : string) :
  environ w !! "AMAP_API_KEY" = Some k ->
  env_config w = env_only k (getenv_or (environ w) "AMAP_SECURITY_JS_CODE" "").
Proof. unfold env_config, env_only, getenv_or. by intros ->. Qed.

(** First step of the chain: a set, non-empty key ends the resolution. *)
Lemma resolution_env (w : World) :
  getenv_truthy (environ w) "AMAP_API_KEY" = true ->
  resolution w = (env_config w, []).
Proof.
  intros Hkey. pose proof (resolution_cases w) as Hres.
  unfold try_body in Hres. rewrite Hkey, config_from_env_eq in Hres.
  destruct Hres as (c & [= <-] & ->). reflexivity.
Qed.

(** Third step: with no key in the environment and no file, the body
    raises [FileNotFoundError]. *)
Lemma try_body_no_file (w : World) (self : Config) :
  getenv_truthy (environ w) "AMAP_API_KEY" = false ->
  config_toml w = None ->
  try_body w self
  = (inl (Raised FileNotFoundError ("配置文件不存在: " +:+ config_path w)),
     self, []).
Proof. unfold try_body. by intros -> ->. Qed.

Lemma resolution_raised (w : World) (e : exn) (s : Config) (out : list line) :
  try_body w unbuilt = (inl e, s, out) ->
  resolution w = (env_config w, [fallback_warning e]).
Proof. intros Hbody. pose proof (resolution_cases w) as Hres. by rewrite Hbody in Hres. Qed.

(** Second step, once the file is parsed and its [amap] table holds a
    truthy [api_key]: what is left of the body is the two model
    constructions and the assignment. *)
Lemma try_body_file (w : World) (t a : gmap string toml_value)
    (v : toml_value) (self : Config) :
  getenv_truthy (environ w) "AMAP_API_KEY" = false ->
  config_toml w = Some (Loaded t) ->
  t !! "amap" = Some (TTable a) ->
  a !! "api_key" = Some v ->
  truthy v = true ->
  try_body w self
  = bind (AMapSettings_new a) (fun am =>
      bind (kwargs "LogSettings" (default (TTable ∅) (t !! "log"))) (fun kw =>
        bind (LogSettings_new kw) (fun l =>
          set_config (Some {| amap := am; log := Some l |})))) self.
Proof.
  unfold try_body. intros -> -> Ha Hv Htrue.
  unfold bind, load_toml, dict_get, kwargs, ret. rewrite Ha. cbn.
  rewrite Hv. cbn. rewrite Htrue. cbn.
  match goal with |- _ = ?rhs => by destruct rhs as [[r s] out] end.
Qed.

(** Both models accept the file: the body assigns the file's settings. *)
Lemma file_models_accept (t a : gmap string toml_value) (self : Config) :
  amap_validates a && log_validates t = true ->
  exists k sc l lv fp,
    required_str a "api_key" = Some k
    /\ defaulted_str a "security_js_code" None Some = Some sc
    /\ log_kwargs t = Some l
    /\ defaulted_str l "level" "INFO" id = Some lv
    /\ defaulted_str l "file_path" "logs/meetspot.log" id = Some fp
    /\ bind (AMapSettings_new a) (fun am =>
         bind (kwargs "LogSettings" (default (TTable ∅) (t !! "log"))) (fun kw =>
           bind (LogSettings_new kw) (fun l =>
             set_config (Some {| amap := am; log := Some l |})))) self
       = (inr tt,
          with_config self
            {| amap := {| api_key := k; security_js_code := sc |};
               log := Some {| level := lv; file_path := fp |} |},
          []).
Proof.
  unfold amap_validates, log_validates, log_kwargs.
  intros [[Hk Hsc]%andb_prop Hlog]%andb_prop.
  destruct (required_str a "api_key") as [k |] eqn:Ek; [| done].
  destruct (defaulted_str a "security_js_code" None Some) as [sc |] eqn:Esc;
    [| done].
  unfold bind at 1. unfold AMapSettings_new. rewrite Ek, Esc. unfold ret at 1.
  destruct (t !! "log") as [[| | | | | | | | l] |]; try done.
  - apply andb_prop in Hlog as [Hlv Hfp].
    destruct (defaulted_str l "level" "INFO" id) as [lv |] eqn:Elv; [| done].
    destruct (defaulted_str l "file_path" "logs/meetspot.log" id) as [fp |]
      eqn:Efp; [| done].
    exists k, sc, l, lv, fp. repeat (split; [done |]).
    cbn [default from_option id kwargs].
    unfold bind, ret, LogSettings_new, set_config.
    by rewrite Elv, Efp.
  - exists k, sc, ∅, "INFO", "logs/meetspot.log". repeat (split; [done |]).
    cbn [default from_option id kwargs].
    unfold bind, ret, LogSettings_new, set_config.
    unfold defaulted_str. by rewrite !lookup_empty.
Qed.

(** A model rejects the file: the body raises before assigning. *)
Lemma file_models_reject (t a : gmap string toml_value) (self : Config) :
  amap_validates a && log_validates t = false ->
  exists e,
    bind (AMapSettings_new a) (fun am =>
      bind (kwargs "LogSettings" (default (TTable ∅) (t !! "log"))) (fun kw =>
        bind (LogSettings_new kw) (fun l =>
          set_config (Some {| amap := am; log := Some l |})))) self
    = (inl e, self, []).
Proof.
  unfold amap_validates, log_validates.
  intros Hrej. unfold bind at 1. unfold AMapSettings_new.
  destruct (required_str a "api_key") as [k |];
    [| unfold raise; destruct (defaulted_str a _ _ _); eauto].
  destruct (defaulted_str a "security_js_code" None Some) as [sc |];
    [| unfold raise; eauto].
  unfold ret at 1. cbn [present andb] in Hrej.
  destruct (t !! "log") as [[| | | | | | | | l] |];
    cbn [default from_option id kwargs]; unfold bind, raise, ret; eauto;
    [| done].
  unfold LogSettings_new.
  destruct (defaulted_str l "level" "INFO" id) as [lv |];
    [| unfold raise; destruct (defaulted_str l _ _ _); eauto].
  destruct (defaulted_str l "file_path" "logs/meetspot.log" id) as [fp |];
    [done | unfold raise; eauto].
Qed.

Lemma env_config_falsy (w : World) :
  getenv_truthy (environ w) "AMAP_API_KEY" = false ->
  env_config w = env_only "" (getenv_or (environ w) "AMAP_SECURITY_JS_CODE" "").
Proof. intros Hkey. unfold env_config, env_only. by rewrite getenv_falsy_or. Qed.

Lemma defaulted_str_Some {A} (kw : gmap string toml_value) (k : string)
    (d : A) (wrap : string -> A) (x : A) :
  defaulted_str kw k d wrap = Some x ->
  x = from_option wrap d (kw !! k ≫= str_validator).
Proof.
  unfold defaulted_str. destruct (kw !! k) as [v |]; cbn; [| congruence].
  destruct (str_validator v); cbn; congruence.
Qed.

(** Resolution reads two variables of the environment and no other. *)
Lemma resolution_environ (w : World) (env : gmap string string) :
  env !! "AMAP_API_KEY" = environ w !! "AMAP_API_KEY" ->
  env !! "AMAP_SECURITY_JS_CODE" = environ w !! "AMAP_SECURITY_JS_CODE" ->
  resolution (with_environ w env) = resolution w.
Proof.
  intros Hkey Hsec.
  unfold resolution, _load_initial_config, try_except, try_body,
    config_from_env, env_config, getenv_truthy, getenv_or, with_environ.
  cbn [environ config_path config_toml]. by rewrite Hkey, Hsec.
Qed.

(** A run keeps the handle built: no call raises, and each leaves some
    settings in place. *)
Lemma perform_holding (w : World) (k : call) (c : AppConfig) :
  exists c' out, perform w k (holding c) = (inr tt, holding c', out).
Proof.
  destruct k; unfold perform, bind.
  - exists c, []. by rewrite get_settings_held.
  - rewrite reload_settings_eq. eauto.
Qed.

Lemma calls_holding (cs : list (World * call)) (c : AppConfig) :
  exists c' out, calls cs (holding c) = (inr tt, holding c', out).
Proof.
  revert c. induction cs as [| [w k] cs IH]; intros c; cbn [calls].
  - by exists c, [].
  - unfold bind. destruct (perform_holding w k c) as (c1 & out1 & ->).
    destruct (IH c1) as (c2 & out2 & ->). eauto.
Qed.

(** While the key stays set to [k], every resolution of a run takes the
    first step, so the handle holds [k] throughout and nothing is printed. *)
Lemma calls_env_key (k : string) (cs : list (World * call)) (sec : string) :
  k <> "" ->
  Forall (fun v => environ v !! "AMAP_API_KEY" = Some k) cs.*1 ->
  exists sec',
    calls cs (holding (env_only k sec))
    = (inr tt, holding (env_only k sec'), []).
Proof.
  intros Hk. revert sec.
  induction cs as [| [w c] cs IH]; intros sec Hall; cbn [calls].
  - by exists sec.
  - apply Forall_cons in Hall as [Hw Hall]. cbn in Hw.
    unfold bind. destruct c; unfold perform, bind.
    + rewrite get_settings_held. cbn.
      destruct (IH sec Hall) as (sec' & ->). by exists sec'.
    + rewrite reload_settings_eq, resolution_env
        by (by eapply getenv_truthy_Some).
      rewrite (env_config_key w k Hw). cbn [fst snd].
      destruct (IH (getenv_or (environ w) "AMAP_SECURITY_JS_CODE" "") Hall)
        as (sec' & ->).
      by exists sec'.
Qed.

End ConfigFacts.

Section ConfigClaims.
Context `{Pydantic}.

(** C1. When AMAP_API_KEY is set and not empty, resolution builds the
    settings from the environment alone, whatever the configuration file
    holds: the key is that variable's value, the security code is the value
    of AMAP_SECURITY_JS_CODE or the empty string when that is unset, the log
    settings are the defaults, and nothing is printed.  This is what
    [_load_initial_config] assigns, what the first [get_settings()] returns,
    and what [get_settings()] returns at the end of every run through which
    the key stays set. *)
Theorem env_override (w : World) (k : string) (self : Config) (p : Process)
    (w0 w' : World) (cs : list (World * call)) :
  environ w !! "AMAP_API_KEY" = Some k ->
  k <> "" ->
  initialized p = false ->
  Forall (fun v => environ v !! "AMAP_API_KEY" = Some k) (w0 :: cs.*1) ->
  let c := env_only k (default "" (environ w !! "AMAP_SECURITY_JS_CODE")) in
  _load_initial_config w self = (inr tt, with_config self c, [])
  /\ get_settings w p = (inr c, holding c, [])
  /\ exists sec,
      bind (run w0 cs) (fun _ => get_settings w') fresh
      = (inr (env_only k sec), holding (env_only k sec), []).
Proof.
  intros Hw Hk Hp Hall c.
  assert (resolution w = (c, [])) as Hres.
  { rewrite resolution_env by (by eapply getenv_truthy_Some).
    by rewrite (env_config_key w k Hw). }
  split; [| split].
  - by rewrite load_initial_config_eq, Hres.
  - by rewrite get_settings_first, Hres.
  - apply Forall_cons in Hall as [Hw0 Hall].
    unfold run, bind. rewrite Config_call_fresh.
    rewrite resolution_env by (by eapply getenv_truthy_Some).
    rewrite (env_config_key w0 k Hw0). cbn [fst snd].
    destruct (calls_env_key k cs
                (getenv_or (environ w0) "AMAP_SECURITY_JS_CODE" "") Hk Hall)
      as (sec & ->).
    exists sec. by rewrite (get_settings_held w' (env_only k sec)).
Qed.

(** C2, as the code has it.  When AMAP_API_KEY is unset or empty, the
    configuration file parses, its [amap] table holds a non-empty string
    [api_key], and settings validation accepts both tables, the first
    [get_settings()] returns the file's key and prints nothing; the security
    code is the file's if given; the log settings are read field by field
    from the [log] table, a field not given taking its default, and are the
    defaults when the file has no [log] table. *)
Theorem file_settings (w : World) (t a : gmap string toml_value) (k : string)
    (p : Process) :
  environ w !! "AMAP_API_KEY" = None \/ environ w !! "AMAP_API_KEY" = Some "" ->
  config_toml w = Some (Loaded t) ->
  t !! "amap" = Some (TTable a) ->
  a !! "api_key" = Some (TStr k) ->
  k <> "" ->
  amap_validates a && log_validates t = true ->
  initialized p = false ->
  exists c l lg,
    get_settings w p = (inr c, holding c, [])
    /\ api_key (amap c) = k
    /\ security_js_code (amap c) = a !! "security_js_code" ≫= str_validator
    /\ log_kwargs t = Some l
    /\ log c = Some lg
    /\ level lg = default "INFO" (l !! "level" ≫= str_validator)
    /\ file_path lg
       = default "logs/meetspot.log" (l !! "file_path" ≫= str_validator)
    /\ (t !! "log" = None -> lg = LogSettings_default).
Proof.
  intros Hkey%getenv_truthy_false Hfile Ha Hk Hne Hvalid Hp.
  assert (truthy (TStr k) = true) as Htrue.
  { cbn. by destruct (String.eqb_spec k ""). }
  destruct (file_models_accept t a unbuilt Hvalid)
    as (k' & sc & l & lv & fp & Ek & Esc & El & Elv & Efp & Hrun).
  unfold required_str in Ek. rewrite Hk in Ek. cbn in Ek.
  rewrite str_validator_str in Ek. injection Ek as <-.
  pose proof (resolution_cases w) as Hres.
  rewrite (try_body_file w t a (TStr k) unbuilt Hkey Hfile Ha Hk Htrue), Hrun
    in Hres.
  destruct Hres as (c & [= <-] & Hres).
  eexists _, l, _. rewrite (get_settings_first w p Hp), Hres. cbn.
  split; [reflexivity |]. split; [reflexivity |].
  split; [apply defaulted_str_Some in Esc; by destruct (_ ≫= _) |].
  split; [done |]. split; [reflexivity |].
  split; [by apply defaulted_str_Some in Elv |].
  split; [by apply defaulted_str_Some in Efp |].
  intros Hnolog. unfold log_kwargs in El. rewrite Hnolog in El.
  injection El as <-. unfold defaulted_str in Elv, Efp.
  rewrite lookup_empty in Elv, Efp. by injection Elv as <-; injection Efp as <-.
Qed.

(** C5, as the code has it.  With AMAP_API_KEY unset and no configuration
    file, the first [get_settings()] returns an empty key, the default log
    settings, and as security code the value of AMAP_SECURITY_JS_CODE, which
    is the empty string only when that variable is unset too; the one line
    printed is the fallback warning for the missing file. *)
Theorem no_key_no_file (w : World) (p : Process) :
  environ w !! "AMAP_API_KEY" = None ->
  config_toml w = None ->
  initialized p = false ->
  get_settings w p
  = (inr (env_only "" (default "" (environ w !! "AMAP_SECURITY_JS_CODE"))),
     holding (env_only "" (default "" (environ w !! "AMAP_SECURITY_JS_CODE"))),
     [fallback_warning
        (Raised FileNotFoundError ("配置文件不存在: " +:+ config_path w))]).
Proof.
  intros Hkey Hfile Hp.
  assert (getenv_truthy (environ w) "AMAP_API_KEY" = false) as Hfalsy
    by (apply getenv_truthy_false; by left).
  rewrite (get_settings_first w p Hp).
  rewrite (resolution_raised w _ _ _ (try_body_no_file w unbuilt Hfalsy Hfile)).
  by rewrite (env_config_falsy w Hfalsy).
Qed.

(** C7. [reload()] runs the whole chain again in the environment of the
    call and replaces the snapshot: whatever the handle held, the next
    [get_settings()] returns exactly what a first resolution in that
    environment returns, and [reload()] printed what that resolution prints.
    So a key set in the environment before [reload()] is the key returned
    afterwards. *)
Theorem reload_rebuilds (p : Process) (w1 w2 : World) :
  exists c out,
    get_settings w1 fresh = (inr c, holding c, out)
    /\ bind (reload_settings w1) (fun _ => get_settings w2) p
       = (inr c, holding c, out)
    /\ forall k,
        environ w1 !! "AMAP_API_KEY" = Some k -> k <> "" ->
        api_key (amap c) = k.
Proof.
  exists (resolution w1).1, (resolution w1).2. split; [| split].
  - by apply get_settings_first.
  - unfold bind. rewrite reload_settings_eq, get_settings_held.
    by rewrite app_nil_r.
  - intros k Hk Hne.
    rewrite resolution_env by (by eapply getenv_truthy_Some).
    by rewrite (env_config_key w1 k Hk).
Qed.

(** C9. When AMAP_API_KEY is unset or empty and the file's [amap] table
    holds a non-empty [api_key], but settings validation rejects a field of
    that table or the [log] entry, the first [get_settings()] discards the
    file: it prints the fallback warning and returns the settings of the
    environment variables alone, with an empty key and the default log
    settings. *)
Theorem invalid_file_falls_back (w : World) (t a : gmap string toml_value)
    (v : toml_value) (p : Process) :
  environ w !! "AMAP_API_KEY" = None \/ environ w !! "AMAP_API_KEY" = Some "" ->
  config_toml w = Some (Loaded t) ->
  t !! "amap" = Some (TTable a) ->
  a !! "api_key" = Some v ->
  truthy v = true ->
  amap_validates a && log_validates t = false ->
  initialized p = false ->
  exists e,
    get_settings w p
    = (inr (env_only "" (default "" (environ w !! "AMAP_SECURITY_JS_CODE"))),
       holding (env_only "" (default "" (environ w !! "AMAP_SECURITY_JS_CODE"))),
       [fallback_warning e]).
Proof.
  intros Hkey%getenv_truthy_false Hfile Ha Hv Htrue Hrej Hp.
  destruct (file_models_reject t a unbuilt Hrej) as (e & Hrun).
  exists e. rewrite (get_settings_first w p Hp).
  rewrite (resolution_raised w e unbuilt []).
  - by rewrite (env_config_falsy w Hkey).
  - by rewrite (try_body_file w t a v unbuilt Hkey Hfile Ha Hv Htrue).
Qed.

End ConfigClaims.

(** *** The claims at the concrete environments *)

Lemma env_override_abc123 :
  get_settings world_abc123 fresh
  = (inr (env_only "abc123" ""), holding (env_only "abc123" ""), [])
  /\ exists sec,
      bind (run world_abc123 [(world_abc123, Reload); (world_abc123, GetSettings)])
        (fun _ => get_settings world_abc123) fresh
      = (inr (env_only "abc123" sec), holding (env_only "abc123" sec), []).
Proof.
  apply (env_override world_abc123 "abc123" unbuilt fresh world_abc123
           world_abc123 [(world_abc123, Reload); (world_abc123, GetSettings)]).
  - reflexivity.
  - discriminate.
  - reflexivity.
  - repeat constructor.
Defined.

Lemma file_settings_xyz :
  exists c,
    get_settings world_xyz fresh = (inr c, holding c, [])
    /\ api_key (amap c) = "xyz"
    /\ security_js_code (amap c) = None
    /\ log c = Some LogSettings_default.
Proof.
  destruct (file_settings world_xyz toml_xyz {[ "api_key" := TStr "xyz" ]}
              "xyz" fresh)
    as (c & l & lg & Hget & Hkey & Hsec & Hl & Hlog & Hlv & Hfp & Hdef).
  - left. reflexivity.
  - reflexivity.
  - reflexivity.
  - reflexivity.
  - discriminate.
  - reflexivity.
  - reflexivity.
  - exists c. split; [exact Hget |]. split; [exact Hkey |].
    split; [exact Hsec |]. rewrite Hlog. f_equal. apply Hdef. reflexivity.
Defined.

(** The claim C2 as stated fails here: the key is unset, the file exists
    and its [amap] table holds the non-empty key ["xyz"], yet the settings
    returned carry the empty key, because the [log] table does not validate. *)
Lemma file_key_discarded :
  environ world_bad_level !! "AMAP_API_KEY" = None
  /\ config_toml world_bad_level = Some (Loaded toml_bad_level)
  /\ toml_bad_level !! "amap" = Some (TTable {[ "api_key" := TStr "xyz" ]})
  /\ get_settings world_bad_level fresh
     = (inr (env_only "" ""), holding (env_only "" ""),
        [fallback_warning (Invalid "LogSettings" ["level"])]).
Proof. repeat split; reflexivity. Qed.

Lemma no_key_no_file_bare :
  get_settings world_bare fresh
  = (inr (env_only "" ""), holding (env_only "" ""),
     [fallback_warning
        (Raised FileNotFoundError
           ("配置文件不存在: " +:+ config_path world_bare))]).
Proof.
  apply (no_key_no_file world_bare fresh); reflexivity.
Defined.

(** The claim C5 as stated fails here: no file, the key unset, and the
    security code returned is not the empty string. *)
Lemma security_code_kept :
  environ world_sec !! "AMAP_API_KEY" = None
  /\ config_toml world_sec = None
  /\ get_settings world_sec fresh
     = (inr (env_only "" "s3c"), holding (env_only "" "s3c"),
        [fallback_warning
           (Raised FileNotFoundError
              ("配置文件不存在: " +:+ config_path world_sec))]).
Proof. repeat split; reflexivity. Qed.

Lemma reload_rebuilds_abc123 :
  exists c out,
    get_settings world_abc123 fresh = (inr c, holding c, out)
    /\ bind (reload_settings world_abc123) (fun _ => get_settings world_bare)
         (holding (env_only "" ""))
       = (inr c, holding c, out)
    /\ api_key (amap c) = "abc123".
Proof.
  destruct (reload_rebuilds (holding (env_only "" "")) world_abc123 world_bare)
    as (c & out & Hfirst & Hnext & Hkey).
  exists c, out. split; [exact Hfirst |]. split; [exact Hnext |].
  apply Hkey; [reflexivity | discriminate].
Defined.

Lemma invalid_file_falls_back_bad_log :
  exists e,
    get_settings world_bad_log fresh
    = (inr (env_only "" ""), holding (env_only "" ""), [fallback_warning e]).
Proof.
  apply (invalid_file_falls_back world_bad_log toml_bad_log
           {[ "api_key" := TStr "xyz" ]} (TStr "xyz") fresh).
  - left. reflexivity.
  - reflexivity.
  - reflexivity.
  - reflexivity.
  - reflexivity.
  - reflexivity.
  - reflexivity.
Defined.

End ConfigSimpleProofs.

(** ** The server bootstrap: facts and claims *)
Module WebServerProofs.
Import Py WebServer.
Local Open Scope py_scope.

(** As for the settings, the facts and claims of this module are about a
    standard output that takes every line; [WebServerOutput] has the
    general case. *)
#[local] Existing Instance stdout_accepts.

Section ServerFacts.
Variable int_of_str : string -> option Z.

Lemma print_all_eq {S} (ls : list line) (s : S) :
  print_all ls s = (inr tt, s, ls).
Proof.
  induction ls as [| l ls IH]; [reflexivity |].
  cbn [print_all]. unfold bind, print. cbn [stdout_rejects stdout_accepts].
  by rewrite IH.
Qed.

(** The body, path by path. *)
Lemma startup_import_app (w : Host) (e : exn) (log : list effect) :
  import_app w = Some e ->
  startup int_of_str w log = (inl e, log ++ [Import "api.index"], []).
Proof. unfold startup, bind, attempt. by intros ->. Qed.

Lemma startup_import_uvicorn (w : Host) (e : exn) (log : list effect) :
  import_app w = None ->
  import_uvicorn w = Some e ->
  startup int_of_str w log
  = (inl e, log ++ [Import "api.index"; Import "uvicorn"], []).
Proof.
  unfold startup, bind, attempt. intros -> ->. by rewrite <- app_assoc.
Qed.

Lemma startup_port_error (w : Host) (e : exn) (log : list effect) :
  import_app w = None ->
  import_uvicorn w = None ->
  port_of int_of_str w = inl e ->
  startup int_of_str w log
  = (inl e, log ++ [Import "api.index"; Import "uvicorn"], []).
Proof.
  unfold startup, bind, attempt, resolve_port, lift. intros -> -> ->.
  by rewrite <- app_assoc.
Qed.

Lemma startup_started (w : Host) (p : Z) (log : list effect) :
  import_app w = None ->
  import_uvicorn w = None ->
  port_of int_of_str w = inr p ->
  startup int_of_str w log
  = (match uvicorn_run w (server_args w p) with
     | Some e => inl e
     | None => inr tt
     end,
     log ++ [Import "api.index"; Import "uvicorn"; UvicornRun (server_args w p)],
     banner (is_production w) p ++ pointers).
Proof.
  unfold startup, bind, resolve_port, lift, attempt. intros -> -> ->.
  rewrite !print_all_eq. cbn [app].
  by rewrite <- !app_assoc, app_nil_r.
Qed.

(** The [try] statement around the body. *)
Lemma main_caught (w : Host) (e : exn) (log s : list effect)
    (out : list line) :
  startup int_of_str w log = (inl e, s, out) ->
  is_Exception (class_of e) = true ->
  main int_of_str w log = (inl (SysExit 1), s, out ++ diagnostic e).
Proof.
  unfold main, try_excepts, diagnostic. intros -> Hexc. cbn [handler_for].
  destruct (is_ImportError (class_of e)); [reflexivity |]. by rewrite Hexc.
Qed.

Lemma not_Exception_not_ImportError (c : exn_class) :
  is_Exception c = false -> is_ImportError c = false.
Proof. by destruct c. Qed.

Lemma main_uncaught (w : Host) (e : exn) (log s : list effect)
    (out : list line) :
  startup int_of_str w log = (inl e, s, out) ->
  is_Exception (class_of e) = false ->
  main int_of_str w log = (inl e, s, out).
Proof.
  unfold main, try_excepts. intros -> Hexc. cbn [handler_for].
  by rewrite (not_Exception_not_ImportError _ Hexc), Hexc.
Qed.

Lemma main_extends (w : Host) (r0 : exn + unit) (log s : list effect)
    (out : list line) :
  startup int_of_str w log = (r0, s, out) ->
  exists r out', main int_of_str w log = (r, s, out ++ out').
Proof.
  unfold main, try_excepts. intros ->. destruct r0 as [e | []].
  - cbn [handler_for].
    destruct (is_ImportError (class_of e)); [cbn; eauto |].
    destruct (is_Exception (class_of e)); [cbn; eauto |].
    exists (inl e), []. by rewrite app_nil_r.
  - exists (inr tt), []. by rewrite app_nil_r.
Qed.

End ServerFacts.

Section ServerClaims.
Variable int_of_str : string -> option Z.

(** C4, as the code has it.  The port comes from PORT.  With PORT unset
    the server is started on 11024; with PORT set to text that [int] reads
    as [n] it is started on [n]; with PORT set to text that [int] rejects no
    default is taken: the [ValueError] of [int] is handled as a startup
    failure, the server is not started and the process exits with status 1. *)
Theorem port_from_environment (w : Host) :
  import_app w = None ->
  import_uvicorn w = None ->
  (os_environ w !! "PORT" = None ->
   served (main int_of_str w []).1.2 = [server_args w 11024])
  /\ (forall s n,
        os_environ w !! "PORT" = Some s -> int_of_str s = Some n ->
        served (main int_of_str w []).1.2 = [server_args w n])
  /\ (forall s,
        os_environ w !! "PORT" = Some s -> int_of_str s = None ->
        main int_of_str w []
        = (inl (SysExit 1), [Import "api.index"; Import "uvicorn"],
           [[Lit "❌ 启动失败: "; FExn (InvalidLiteral s)]])
        /\ served (main int_of_str w []).1.2 = []
        /\ exit_status (main int_of_str w []).1.1 = Some 1%Z).
Proof.
  intros Happ Huv.
  assert (forall p, port_of int_of_str w = inr p ->
            served (main int_of_str w []).1.2 = [server_args w p]) as Hrun.
  { intros p Hport.
    destruct (main_extends int_of_str w _ [] _ _
                (startup_started int_of_str w p [] Happ Huv Hport))
      as (r & out' & ->).
    reflexivity. }
  split; [| split].
  - intros Hunset. apply Hrun. unfold port_of. by rewrite Hunset.
  - intros s n Hset Hint. apply Hrun. unfold port_of. by rewrite Hset, Hint.
  - intros s Hset Hint.
    assert (port_of int_of_str w = inl (InvalidLiteral s)) as Hport
      by (unfold port_of; by rewrite Hset, Hint).
    rewrite (main_caught int_of_str w _ [] _ _
               (startup_port_error int_of_str w _ [] Happ Huv Hport) eq_refl).
    done.
Qed.

End ServerClaims.

(** *** The claims at the concrete environments *)

Example int_decimal_samples :
  int_decimal "8080" = Some 8080%Z
  /\ int_decimal " 11_024 " = Some 11024%Z
  /\ int_decimal "-7" = Some (-7)%Z
  /\ int_decimal "" = None
  /\ int_decimal "80 80" = None
  /\ int_decimal "8080_" = None
  /\ int_decimal "0x1F90" = None
  /\ int_decimal "eighty" = None
  /\ int_decimal (String "009"%char "8080") = Some 8080%Z
  /\ int_decimal (String "028"%char "8080") = None.
Proof. repeat split; reflexivity. Qed.

Lemma port_from_environment_samples :
  served (main int_decimal host_local []).1.2 = [server_args host_local 11024]
  /\ served (main int_decimal host_railway []).1.2
     = [server_args host_railway 8080]
  /\ exit_status (main int_decimal host_bad_port []).1.1 = Some 1%Z.
Proof.
  split; [| split].
  - apply (port_from_environment int_decimal host_local); reflexivity.
  - apply (port_from_environment int_decimal host_railway eq_refl eq_refl)
      with (s := "8080"); reflexivity.
  - apply (port_from_environment int_decimal host_bad_port eq_refl eq_refl)
      with (s := "eighty"); reflexivity.
Defined.

(** The claim C4 as stated fails here: PORT is set to text that is no
    integer, and the server is not started on 11024 nor at all; the process
    exits with status 1. *)
Lemma port_not_defaulted :
  os_environ host_bad_port !! "PORT" = Some "eighty"
  /\ int_decimal "eighty" = None
  /\ main int_decimal host_bad_port []
     = (inl (SysExit 1), [Import "api.index"; Import "uvicorn"],
        [[Lit "❌ 启动失败: "; FExn (InvalidLiteral "eighty")]])
  /\ served (main int_decimal host_bad_port []).1.2 = [].
Proof. repeat split; reflexivity. Qed.

End WebServerProofs.

(** ** Resolution of the settings: further properties *)
Module ConfigSimpleLaws.
Import Py ConfigSimple ConfigSimpleProofs.
Local Open Scope py_scope.

#[local] Existing Instance stdout_accepts.

Section ConfigLaws.
Context `{Pydantic}.

(** Resolution reads the environment through three expressions only. *)
Lemma resolution_getenv (w : World) (env : gmap string string) :
  getenv_truthy env "AMAP_API_KEY" = getenv_truthy (environ w) "AMAP_API_KEY" ->
  getenv_or env "AMAP_API_KEY" "" = getenv_or (environ w) "AMAP_API_KEY" "" ->
  getenv_or env "AMAP_SECURITY_JS_CODE" ""
  = getenv_or (environ w) "AMAP_SECURITY_JS_CODE" "" ->
  resolution (with_environ w env) = resolution w.
Proof.
  intros Htruthy Hkey Hsec.
  unfold resolution, _load_initial_config, try_except, try_body,
    config_from_env, env_config, with_environ.
  cbn [environ config_path config_toml]. by rewrite Htruthy, Hkey, Hsec.
Qed.

(** Once built, the handle answers without looking at its environment. *)
Lemma get_settings_initialized (w w' : World) (p : Process) :
  initialized p = true -> get_settings w p = get_settings w' p.
Proof.
  unfold initialized. destruct p as [[self |]]; [| done].
  cbn [_instance from_option]. intros Hini.
  unfold get_settings, Config_call, on_instance, bind, Config_new.
  cbn [_instance default from_option id].
  by rewrite !Config_init_eq, Hini.
Qed.

(** What a sequence of calls leaves behind a built handle. *)
Lemma calls_eq (cs : list (World * call)) (c : AppConfig) :
  calls cs (holding c)
  = (inr tt,
     holding (from_option (fun w => (resolution w).1) c (last (reload_worlds cs))),
     concat ((fun w => (resolution w).2) <$> reload_worlds cs)).
Proof.
  revert c. induction cs as [| [w k] cs IH]; intros c; [reflexivity |].
  cbn [calls reload_worlds]. unfold bind. destruct k; unfold perform, bind.
  - rewrite get_settings_held. cbn. by rewrite IH.
  - rewrite reload_settings_eq, IH. cbn [fmap list_fmap concat].
    rewrite last_cons. by destruct (last (reload_worlds cs)).
Qed.

(** The handle reads its environment only to resolve. *)
Lemma get_settings_resolution (w w' : World) (p : Process) :
  resolution w = resolution w' -> get_settings w p = get_settings w' p.
Proof.
  intros Hres. destruct (initialized p) eqn:Hini.
  - by apply get_settings_initialized.
  - by rewrite !get_settings_first, Hres.
Qed.

(** When the body returns, the settings it assigned carry log settings. *)
Lemma try_body_returns_log (w : World) (s : Config) (out : list line) :
  try_body w unbuilt = (inr tt, s, out) ->
  exists c lg, _config s = Some c /\ log c = Some lg.
Proof.
  unfold try_body.
  destruct (getenv_truthy _ _);
    [rewrite config_from_env_eq; intros [= <- <-]; cbn; eauto |].
  destruct (config_toml w) as [[msg | msg | toml_data] |]; cbn; try discriminate.
  unfold bind, dict_get, kwargs, AMapSettings_new, LogSettings_new,
    set_config, raise, ret.
  intros Hrun.
  repeat (case_match; cbn in *; simplify_eq; try done); eauto.
Qed.

(** X1. In every run the snapshot is the outcome of the last resolution:
    that of the last [reload()], or of the import when there was none.  The
    run prints what the import and the reloads print, in order, so the
    [get_settings()] calls in it change and print nothing; and the handle
    answers the next [get_settings()] with that snapshot in any
    environment. *)
Theorem last_reload_wins (w0 : World) (cs : list (World * call)) (w : World) :
  run w0 cs fresh
  = (inr tt,
     holding (resolution (default w0 (last (reload_worlds cs)))).1,
     concat ((fun v => (resolution v).2) <$> (w0 :: reload_worlds cs)))
  /\ get_settings w
       (holding (resolution (default w0 (last (reload_worlds cs)))).1)
     = (inr (resolution (default w0 (last (reload_worlds cs)))).1,
        holding (resolution (default w0 (last (reload_worlds cs)))).1,
        []).
Proof.
  split; [| apply get_settings_held].
  unfold run, bind. rewrite Config_call_fresh, calls_eq.
  cbn [fmap list_fmap concat]. by destruct (last (reload_worlds cs)).
Qed.

(** X2. Setting a variable that was unset to the empty string changes
    nothing: resolution, [get_settings()] and [reload()] behave as before.
    In particular an empty AMAP_API_KEY counts as no key. *)
Theorem empty_is_unset (w : World) (k : string) (p : Process) :
  environ w !! k = None ->
  resolution (with_environ w (<[k := ""]> (environ w))) = resolution w
  /\ get_settings (with_environ w (<[k := ""]> (environ w))) p
     = get_settings w p
  /\ reload_settings (with_environ w (<[k := ""]> (environ w))) p
     = reload_settings w p.
Proof.
  intros Hk.
  assert (resolution (with_environ w (<[k := ""]> (environ w))) = resolution w)
    as Hres.
  { apply resolution_getenv; unfold getenv_truthy, getenv_or;
      rewrite lookup_insert; case_decide; subst; by rewrite ?Hk. }
  split; [done |]. split; [by apply get_settings_resolution |].
  by rewrite !reload_settings_eq, Hres.
Qed.

(** X3. No variable of the environment other than AMAP_API_KEY and
    AMAP_SECURITY_JS_CODE has any influence: two environments that agree on
    these two give the same [get_settings()] and the same [reload()], from
    any state of the handle. *)
Theorem other_variables_ignored (w : World) (env : gmap string string)
    (p : Process) :
  env !! "AMAP_API_KEY" = environ w !! "AMAP_API_KEY" ->
  env !! "AMAP_SECURITY_JS_CODE" = environ w !! "AMAP_SECURITY_JS_CODE" ->
  get_settings (with_environ w env) p = get_settings w p
  /\ reload_settings (with_environ w env) p = reload_settings w p.
Proof.
  intros Hkey Hsec.
  pose proof (resolution_environ w env Hkey Hsec) as Hres.
  split; [by apply get_settings_resolution |].
  by rewrite !reload_settings_eq, Hres.
Qed.

(** The second step reads two entries of the parsed file and, in a table,
    the keys that are fields of the model. *)
Lemma try_body_agree (w : World) (t t' : gmap string toml_value)
    (self : Config) :
  agree_on ["api_key"; "security_js_code"] (t !! "amap") (t' !! "amap") ->
  agree_on ["level"; "file_path"] (t !! "log") (t' !! "log") ->
  try_body (with_file w (Some (Loaded t'))) self
  = try_body (with_file w (Some (Loaded t))) self.
Proof.
  intros Hamap Hlog. unfold try_body, with_file.
  cbn [environ config_path config_toml].
  destruct (getenv_truthy _ _); [reflexivity |].
  unfold load_toml, bind, ret.
  destruct Hlog as [Hl | (l & l' & Hl & Hl' & Hks)].
  - rewrite <- Hl.
    destruct Hamap as [Ha | (a & a' & Ha & Ha' & Hks)]; [by rewrite <- Ha |].
    rewrite Ha, Ha'.
    apply Forall_cons in Hks as [Hkey Hks]. apply Forall_cons in Hks as [Hsec _].
    cbn [kwargs dict_get].
    unfold AMapSettings_new, required_str, defaulted_str, ret.
    by rewrite Hkey, Hsec.
  - rewrite Hl, Hl'.
    apply Forall_cons in Hks as [Hlv Hks]. apply Forall_cons in Hks as [Hfp _].
    cbn [kwargs].
    unfold LogSettings_new, defaulted_str, ret. rewrite Hlv, Hfp.
    destruct Hamap as [Ha | (a & a' & Ha & Ha' & Hks)]; [by rewrite <- Ha |].
    rewrite Ha, Ha'.
    apply Forall_cons in Hks as [Hkey Hks]. apply Forall_cons in Hks as [Hsec _].
    cbn [kwargs dict_get].
    unfold AMapSettings_new, required_str, defaulted_str, ret.
    by rewrite Hkey, Hsec.
Qed.

(** X5. Of a parsed configuration file only the entries [amap] and [log]
    count, a missing one standing for an empty table, and within these
    tables only the keys that are fields of the settings ([api_key],
    [security_js_code]; [level], [file_path]): two files that agree on
    those resolve alike, so any other key, at top level or in either table,
    is ignored. *)
Theorem unknown_keys_ignored (w : World) (t t' : gmap string toml_value)
    (p : Process) :
  agree_on ["api_key"; "security_js_code"] (t !! "amap") (t' !! "amap") ->
  agree_on ["level"; "file_path"] (t !! "log") (t' !! "log") ->
  resolution (with_file w (Some (Loaded t')))
  = resolution (with_file w (Some (Loaded t)))
  /\ get_settings (with_file w (Some (Loaded t'))) p
     = get_settings (with_file w (Some (Loaded t))) p.
Proof.
  intros Hamap Hlog.
  assert (resolution (with_file w (Some (Loaded t')))
          = resolution (with_file w (Some (Loaded t)))) as Hres.
  { unfold resolution, _load_initial_config, try_except.
    by rewrite (try_body_agree w t t' unbuilt Hamap Hlog). }
  split; [done | by apply get_settings_resolution].
Qed.

Lemma AMapSettings_new_rejects (a : gmap string toml_value) (self : Config) :
  amap_validates a = false ->
  AMapSettings_new a self
  = (inl (Invalid "AMapSettings"
            (failed "api_key" (required_str a "api_key")
             ++ failed "security_js_code"
                  (defaulted_str a "security_js_code" None Some))),
     self, []).
Proof.
  unfold amap_validates, AMapSettings_new.
  destruct (required_str a "api_key");
    destruct (defaulted_str a "security_js_code" None Some); done.
Qed.

Lemma AMapSettings_new_accepts (a : gmap string toml_value) (self : Config) :
  amap_validates a = true ->
  exists am, AMapSettings_new a self = (inr am, self, []).
Proof.
  unfold amap_validates, AMapSettings_new.
  destruct (required_str a "api_key");
    destruct (defaulted_str a "security_js_code" None Some); try done.
  eauto.
Qed.

(** X6. The warning names the first step that failed.  With no usable key
    in the environment and a file that parses: an [amap] entry that is not a
    table is reported as the [AttributeError] of its [get]; an [amap] table
    with a truthy [api_key] that validation rejects is reported as the
    validation error of [AMapSettings], listing the rejected fields,
    whatever the [log] entry is; only when [amap] validates is [log]
    looked at, a [log] that is not a table being reported as the
    [TypeError] of the call and a rejected [log] table as the validation
    error of [LogSettings] with its rejected fields. *)
Theorem first_failure_reported (w : World) (t : gmap string toml_value) :
  getenv_truthy (environ w) "AMAP_API_KEY" = false ->
  config_toml w = Some (Loaded t) ->
  (forall v,
     t !! "amap" = Some v -> (forall a, v <> TTable a) ->
     resolution w
     = (env_config w, [fallback_warning (NoAttribute (type_name v) "get")]))
  /\ (forall a v,
        t !! "amap" = Some (TTable a) ->
        a !! "api_key" = Some v -> truthy v = true ->
        (amap_validates a = false ->
         resolution w
         = (env_config w,
            [fallback_warning
               (Invalid "AMapSettings"
                  (failed "api_key" (required_str a "api_key")
                   ++ failed "security_js_code"
                        (defaulted_str a "security_js_code" None Some)))]))
        /\ (amap_validates a = true ->
            (forall u,
               t !! "log" = Some u -> (forall l, u <> TTable l) ->
               resolution w
               = (env_config w,
                  [fallback_warning (NotAMapping "LogSettings" (type_name u))]))
            /\ (forall l,
                  t !! "log" = Some (TTable l) -> log_validates t = false ->
                  resolution w
                  = (env_config w,
                     [fallback_warning
                        (Invalid "LogSettings"
                           (failed "level" (defaulted_str l "level" "INFO" id)
                            ++ failed "file_path"
                                 (defaulted_str l "file_path"
                                    "logs/meetspot.log" id)))])))).
Proof.
  intros Hkey Hfile. split.
  - intros v Hv Hnot. apply (resolution_raised w _ unbuilt []).
    unfold try_body. rewrite Hkey, Hfile. unfold load_toml, bind, ret.
    rewrite Hv. cbn [default from_option id].
    destruct v; try reflexivity. by destruct (Hnot t0).
  - intros a v Ha Hv Htrue.
    pose proof (try_body_file w t a v unbuilt Hkey Hfile Ha Hv Htrue) as Hbody.
    split.
    + intros Hrej. apply (resolution_raised w _ unbuilt []).
      rewrite Hbody. unfold bind at 1.
      by rewrite (AMapSettings_new_rejects a unbuilt Hrej).
    + intros Hacc.
      destruct (AMapSettings_new_accepts a unbuilt Hacc) as (am & Ham).
      split.
      * intros u Hu Hnot. apply (resolution_raised w _ unbuilt []).
        rewrite Hbody. unfold bind at 1. rewrite Ham. rewrite Hu.
        cbn [default from_option id]. unfold bind at 1.
        destruct u; try reflexivity. by destruct (Hnot t0).
      * intros l Hl Hrej. apply (resolution_raised w _ unbuilt []).
        rewrite Hbody. unfold bind at 1. rewrite Ham. rewrite Hl.
        cbn [default from_option id kwargs]. unfold bind, ret.
        unfold log_validates in Hrej. rewrite Hl in Hrej.
        unfold LogSettings_new.
        destruct (defaulted_str l "level" "INFO" id);
          destruct (defaulted_str l "file_path" "logs/meetspot.log" id);
          done.
Qed.

(** X7. The project root is two levels above the module's own resolved
    location, whatever the working directory: for a module at
    [R/d/f] it is [R], the configuration file is [R/config/config.toml] and
    the workspace is [R/workspace].  In general it is the path without its
    last two names, the root itself for a path that has no more than two;
    the configuration file always lies two levels below it and the
    workspace one. *)
Theorem project_root_layout (R : Path) (d f : string) (file : Path) :
  get_project_root (R ++ [d; f]) = R
  /\ config_file (R ++ [d; f]) = R ++ ["config"; "config.toml"]
  /\ WORKSPACE_ROOT (R ++ [d; f]) = R ++ ["workspace"]
  /\ get_project_root file = take (length file - 2) file
  /\ parent (parent (config_file file)) = PROJECT_ROOT file
  /\ parent (WORKSPACE_ROOT file) = PROJECT_ROOT file.
Proof.
  assert (forall l : Path, removelast l = take (length l - 1) l) as Htake.
  { intros l. induction l as [| x [| y l] IH]; [done | done |].
    change (removelast (x :: y :: l)) with (x :: removelast (y :: l)).
    rewrite IH. cbn [length].
    by replace (S (S (length l)) - 1) with (S (S (length l) - 1)) by lia. }
  assert (get_project_root (R ++ [d; f]) = R) as Hroot.
  { unfold get_project_root, parent.
    change [d; f] with ([d] ++ [f]). by rewrite app_assoc, !removelast_last. }
  unfold config_file, WORKSPACE_ROOT, PROJECT_ROOT, joinpath.
  rewrite Hroot. split; [done |]. split; [by rewrite <- app_assoc |].
  split; [done |]. split; [| split].
  - unfold get_project_root, parent. rewrite !Htake, length_take, take_take.
    f_equal. lia.
  - unfold parent. by rewrite !removelast_last.
  - unfold parent. by rewrite removelast_last.
Qed.

End ConfigLaws.

(** *** The properties at the concrete environments *)

Lemma empty_is_unset_xyz :
  resolution (with_environ world_xyz (<["AMAP_API_KEY" := ""]> (environ world_xyz)))
  = resolution world_xyz
  /\ get_settings
       (with_environ world_xyz (<["AMAP_API_KEY" := ""]> (environ world_xyz)))
       fresh
     = get_settings world_xyz fresh
  /\ reload_settings
       (with_environ world_xyz (<["AMAP_API_KEY" := ""]> (environ world_xyz)))
       fresh
     = reload_settings world_xyz fresh.
Proof.
  apply (empty_is_unset world_xyz "AMAP_API_KEY" fresh). reflexivity.
Defined.

Lemma other_variables_ignored_abc123 :
  get_settings
    (with_environ world_abc123
       {[ "AMAP_API_KEY" := "abc123"; "PORT" := "8080"; "HOME" := "/root" ]})
    fresh
  = get_settings world_abc123 fresh
  /\ reload_settings
       (with_environ world_abc123
          {[ "AMAP_API_KEY" := "abc123"; "PORT" := "8080"; "HOME" := "/root" ]})
       fresh
     = reload_settings world_abc123 fresh.
Proof.
  apply (other_variables_ignored world_abc123
           {[ "AMAP_API_KEY" := "abc123"; "PORT" := "8080"; "HOME" := "/root" ]}
           fresh); reflexivity.
Defined.

Lemma unknown_keys_ignored_xyz :
  resolution (with_file world_xyz (Some (Loaded toml_xyz_more)))
  = resolution (with_file world_xyz (Some (Loaded toml_xyz)))
  /\ get_settings (with_file world_xyz (Some (Loaded toml_xyz_more))) fresh
     = get_settings (with_file world_xyz (Some (Loaded toml_xyz))) fresh.
Proof.
  apply (unknown_keys_ignored world_xyz toml_xyz toml_xyz_more fresh).
  - right. exists {[ "api_key" := TStr "xyz" ]},
      {[ "api_key" := TStr "xyz"; "region" := TStr "cn" ]}.
    split; [reflexivity |]. split; [reflexivity |].
    repeat constructor.
  - right. exists ∅, {[ "rotate" := TBool true ]}.
    split; [reflexivity |]. split; [reflexivity |].
    repeat constructor.
Defined.

Lemma first_failure_reported_samples :
  resolution world_amap_string
  = (env_config world_amap_string,
     [fallback_warning (NoAttribute "str" "get")])
  /\ resolution world_bad_code
     = (env_config world_bad_code,
        [fallback_warning (Invalid "AMapSettings" ["security_js_code"])]).
Proof.
  destruct (first_failure_reported world_amap_string {[ "amap" := TStr "xyz" ]}
              eq_refl eq_refl) as (Hnot_table & _).
  destruct (first_failure_reported world_bad_code toml_bad_code
              eq_refl eq_refl) as (_ & Htable).
  split.
  - apply (Hnot_table (TStr "xyz")); [reflexivity | discriminate].
  - destruct (Htable
                {[ "api_key" := TStr "xyz"; "security_js_code" := TArray [] ]}
                (TStr "xyz") eq_refl eq_refl eq_refl) as (Hrejected & _).
    apply Hrejected. reflexivity.
Defined.

End ConfigSimpleLaws.

(** ** The server bootstrap: further properties *)
Module WebServerLaws.
Import Py WebServer WebServerProofs.
Local Open Scope py_scope.

#[local] Existing Instance stdout_accepts.

Section ServerLaws.
Variable int_of_str : string -> option Z.

(** X8. What becomes of an exception of the running server depends on its
    class.  An [Exception] is reported after the banner and turned into
    exit status 1.  Anything else, a [SystemExit] or a [KeyboardInterrupt],
    passes through [main] as it is, with no diagnostic: a server that
    leaves by [sys.exit(n)] ends the process with status [n]. *)
Theorem server_exception (w : Host) (p : Z) (e : exn) :
  import_app w = None ->
  import_uvicorn w = None ->
  port_of int_of_str w = inr p ->
  uvicorn_run w (server_args w p) = Some e ->
  main int_of_str w []
  = (if is_Exception (class_of e) then inl (SysExit 1) else inl e,
     [Import "api.index"; Import "uvicorn"; UvicornRun (server_args w p)],
     (banner (is_production w) p ++ pointers)
     ++ (if is_Exception (class_of e) then diagnostic e else []))
  /\ (forall n, e = SysExit n ->
       exit_status (main int_of_str w []).1.1 = Some n).
Proof.
  intros Happ Huv Hport Hrun.
  pose proof (startup_started int_of_str w p [] Happ Huv Hport) as Hbody.
  rewrite Hrun in Hbody.
  assert (main int_of_str w []
          = (if is_Exception (class_of e) then inl (SysExit 1) else inl e,
             [Import "api.index"; Import "uvicorn"; UvicornRun (server_args w p)],
             (banner (is_production w) p ++ pointers)
             ++ (if is_Exception (class_of e) then diagnostic e else [])))
    as Hmain.
  { destruct (is_Exception (class_of e)) eqn:Hexc.
    - by rewrite (main_caught int_of_str w e [] _ _ Hbody Hexc).
    - by rewrite (main_uncaught int_of_str w e [] _ _ Hbody Hexc), app_nil_r. }
  split; [exact Hmain |]. intros n ->. by rewrite Hmain.
Qed.

(** X10. A failed import is reported by the class of its exception and
    ends startup there, whatever else is wrong: the next import, the port
    and the server are not reached.  The hint to install the dependencies
    is printed exactly for an [ImportError]; an application module that
    raises any other [Exception] while it is imported is reported as a
    startup failure.  Either way the exit status is 1. *)
Theorem import_failure (w : Host) (e : exn) :
  is_Exception (class_of e) = true ->
  (import_app w = Some e ->
   main int_of_str w []
   = (inl (SysExit 1), [Import "api.index"], diagnostic e))
  /\ (import_app w = None -> import_uvicorn w = Some e ->
      main int_of_str w []
      = (inl (SysExit 1), [Import "api.index"; Import "uvicorn"], diagnostic e))
  /\ (In [Lit "请确保已安装所有依赖: pip install -r requirements.txt"]
         (diagnostic e)
      <-> is_ImportError (class_of e) = true).
Proof.
  intros Hexc. split; [| split].
  - intros Happ.
    by rewrite (main_caught int_of_str w e [] _ _
                  (startup_import_app int_of_str w e [] Happ) Hexc).
  - intros Happ Huv.
    by rewrite (main_caught int_of_str w e [] _ _
                  (startup_import_uvicorn int_of_str w e [] Happ Huv) Hexc).
  - unfold diagnostic. destruct (is_ImportError (class_of e)); cbn.
    + split; [done | auto].
    + split; [| done]. intros [Heq | []]. discriminate Heq.
Qed.

End ServerLaws.

(** *** The properties at the concrete environments *)

Lemma server_exception_exit3 :
  main int_decimal host_exit3 []
  = (inl (SysExit 3),
     [Import "api.index"; Import "uvicorn";
      UvicornRun (server_args host_exit3 11024)],
     (banner false 11024 ++ pointers) ++ [])
  /\ exit_status (main int_decimal host_exit3 []).1.1 = Some 3%Z.
Proof.
  destruct (server_exception int_decimal host_exit3 11024%Z (SysExit 3))
    as (Hmain & Hstatus).
  - reflexivity.
  - reflexivity.
  - reflexivity.
  - reflexivity.
  - split; [exact Hmain | by apply Hstatus].
Defined.

Lemma import_failure_broken_app :
  main int_decimal host_broken_app []
  = (inl (SysExit 1), [Import "api.index"],
     [[Lit "❌ 启动失败: "; FExn (Raised RuntimeError "settings are incomplete")]]).
Proof.
  destruct (import_failure int_decimal host_broken_app
              (Raised RuntimeError "settings are incomplete") eq_refl)
    as (Happ & _ & _).
  apply Happ. reflexivity.
Defined.

End WebServerLaws.

(** ** Resolution of the settings when [print] may raise *)
Module ConfigSimpleOutput.
Import Py ConfigSimple ConfigSimpleProofs.
Local Open Scope py_scope.

Section ConfigOutput.
Context `{Pydantic} `{Stdout}.

(** The handler of line 91, step by step: the warning is printed first, and
    only then are the settings assigned. *)
Lemma load_initial_config_printing (w : World) (self : Config) :
  _load_initial_config w self
  = match try_body w self with
    | (inl e0, _, _) =>
        match stdout_rejects [Lit "配置加载失败，使用默认配置: "; FExn e0] with
        | Some e => (inl e, self, [])
        | None =>
            (inr tt, with_config self (env_config w),
             [[Lit "配置加载失败，使用默认配置: "; FExn e0]])
        end
    | (inr _, s, _) => (inr tt, s, [])
    end.
Proof.
  unfold _load_initial_config, try_except.
  destruct (try_body w self) as [[[e0 | []] s] out] eqn:Hbody.
  - apply try_body_raises in Hbody as (-> & -> & ->).
    unfold bind, print, fallback_warning.
    destruct (stdout_rejects _); [reflexivity |].
    by rewrite config_from_env_eq.
  - by apply try_body_returns in Hbody as (_ & ->).
Qed.

Lemma try_body_raises_anywhere (w : World) (self s : Config) (e0 : exn)
    (out : list line) (self' : Config) :
  try_body w self = (inl e0, s, out) -> try_body w self' = (inl e0, self', []).
Proof.
  intros Hbody. rewrite (try_body_self w self) in Hbody.
  rewrite (try_body_self w self').
  destruct (try_body w unbuilt) as [[[e1 | []] s1] out1] eqn:Hun;
    [| discriminate].
  injection Hbody as <- _ _.
  apply try_body_raises in Hun as (_ & _ & ->). by destruct self'.
Qed.

(** The chain reads two variables of the environment, and no other. *)
Lemma load_initial_config_environ (w : World) (env : gmap string string)
    (self : Config) :
  env !! "AMAP_API_KEY" = environ w !! "AMAP_API_KEY" ->
  env !! "AMAP_SECURITY_JS_CODE" = environ w !! "AMAP_SECURITY_JS_CODE" ->
  _load_initial_config (with_environ w env) self = _load_initial_config w self.
Proof.
  intros Hkey Hsec.
  unfold _load_initial_config, try_except, try_body,
    config_from_env, env_config, getenv_truthy, getenv_or, with_environ.
  cbn [environ config_path config_toml]. by rewrite Hkey, Hsec.
Qed.

Lemma resolution_agrees (w : World) (env : gmap string string) :
  env !! "AMAP_API_KEY" = environ w !! "AMAP_API_KEY" ->
  env !! "AMAP_SECURITY_JS_CODE" = environ w !! "AMAP_SECURITY_JS_CODE" ->
  resolution (with_environ w env) = resolution w.
Proof.
  intros Hkey Hsec.
  unfold resolution, _load_initial_config, try_except, try_body,
    config_from_env, env_config, getenv_truthy, getenv_or, with_environ.
  cbn [environ config_path config_toml]. by rewrite Hkey, Hsec.
Qed.

(** C3, where the code departs from it.  When the [try] body raises and
    the standard output refuses the warning line, the exception of
    [print] leaves the handler before anything is assigned: it leaves
    [_load_initial_config], and so the first [get_settings()], which ends
    with no settings and a handle that is not initialised; a [reload()]
    ends the same way, the handle keeping its old settings. *)
Theorem warning_print_escapes (w : World) (self s : Config) (e0 e : exn)
    (out : list line) (c : AppConfig) :
  try_body w self = (inl e0, s, out) ->
  stdout_rejects [Lit "配置加载失败，使用默认配置: "; FExn e0] = Some e ->
  _load_initial_config w self = (inl e, self, [])
  /\ get_settings w fresh
     = (inl e, {| _instance := Some {| _config := None; _initialized := false |} |},
        [])
  /\ reload_settings w (holding c)
     = (inl e,
        {| _instance := Some {| _config := Some c; _initialized := false |} |},
        []).
Proof.
  intros Hbody Hrej.
  assert (forall self', _load_initial_config w self' = (inl e, self', []))
    as Hload.
  { intros self'. rewrite load_initial_config_printing.
    by rewrite (try_body_raises_anywhere w self s e0 out self' Hbody), Hrej. }
  split; [apply Hload |]. split.
  - unfold get_settings, Config_call, on_instance, bind, Config_new,
      Config_init, get, set_config.
    cbn -[_load_initial_config]. unfold bind. by rewrite Hload.
  - unfold reload_settings, on_instance, Config_new, reload, bind,
      set_initialized.
    cbn -[_load_initial_config]. unfold bind. by rewrite Hload.
Qed.

(** X4. What a resolution leaves behind, for any standard output.  When
    it returns, the settings it assigned carry log settings, although the
    field is optional, and it made at most one call of [print]: the
    fallback warning, and then the settings are those of the environment
    alone.  It raises only when that call of [print] raises, and then
    nothing was assigned and nothing printed. *)
Theorem settings_shape (w : World) (self : Config) :
  match _load_initial_config w self with
  | (inr _, s, out) =>
      exists c lg,
        s = with_config self c /\ log c = Some lg
        /\ (out = []
            \/ exists e0,
                out = [[Lit "配置加载失败，使用默认配置: "; FExn e0]]
                /\ is_Exception (class_of e0) = true
                /\ c = env_config w)
  | (inl e, s, out) =>
      s = self /\ out = []
      /\ exists e0,
          try_body w self = (inl e0, self, [])
          /\ stdout_rejects [Lit "配置加载失败，使用默认配置: "; FExn e0] = Some e
  end.
Proof.
  rewrite load_initial_config_printing.
  destruct (try_body w self) as [[[e0 | []] s] out] eqn:Hbody.
  - pose proof (try_body_raises w self s e0 out Hbody) as (Hexc & -> & ->).
    destruct (stdout_rejects _) as [e |] eqn:Hrej.
    + eauto.
    + exists (env_config w), LogSettings_default. eauto 8.
  - pose proof (try_body_returns w self s out Hbody) as ([c ->] & _).
    assert (exists s' out', try_body w unbuilt = (inr tt, s', out')
                            /\ _config s' = Some c) as (s' & out' & Hun & Hc).
    { rewrite (try_body_self w self) in Hbody.
      destruct (try_body w unbuilt) as [[[e1 | []] s1] out1]; [discriminate |].
      injection Hbody as Hc _. eauto. }
    destruct (ConfigSimpleLaws.try_body_returns_log w s' out' Hun)
      as (c' & lg & Hc' & Hlg).
    rewrite Hc in Hc'. injection Hc' as <-. eauto 8.
Qed.

End ConfigOutput.

(** *** At an ASCII standard output *)

Lemma warning_print_escapes_ascii :
  @get_settings pydantic_strict stdout_ascii world_bare fresh
  = (inl (Unencodable "ascii"),
     {| _instance := Some {| _config := None; _initialized := false |} |}, [])
  /\ @reload_settings pydantic_strict stdout_ascii world_bare
       (holding (env_only "abc123" ""))
     = (inl (Unencodable "ascii"),
        {| _instance :=
             Some {| _config := Some (env_only "abc123" "");
                     _initialized := false |} |},
        []).
Proof.
  destruct (@warning_print_escapes pydantic_strict stdout_ascii
              world_bare unbuilt unbuilt
              (Raised FileNotFoundError
                 ("配置文件不存在: " +:+ config_path world_bare))
              (Unencodable "ascii") [] (env_only "abc123" ""))
    as (_ & Hfirst & Hreload).
  - reflexivity.
  - reflexivity.
  - split; [exact Hfirst | exact Hreload].
Defined.

(** With no key and no file: on an ASCII standard output the resolution
    raises out of the handler; on one that takes every line the settings
    assigned are those of the environment, log settings included. *)
Lemma settings_shape_bare :
  (exists e0,
     try_body world_bare unbuilt = (inl e0, unbuilt, [])
     /\ @stdout_rejects stdout_ascii
          [Lit "配置加载失败，使用默认配置: "; FExn e0]
        = Some (Unencodable "ascii"))
  /\ exists c lg,
      with_config unbuilt (env_only "" "") = with_config unbuilt c
      /\ log c = Some lg.
Proof.
  split.
  - exact (proj2 (proj2
             (@settings_shape pydantic_strict stdout_ascii world_bare unbuilt
              : unbuilt = unbuilt /\ @nil line = [] /\ _))).
  - destruct (@settings_shape pydantic_strict stdout_accepts world_bare unbuilt
              : exists c lg,
                  with_config unbuilt (env_only "" "") = with_config unbuilt c
                  /\ log c = Some lg /\ _)
      as (c & lg & Hc & Hlg & _).
    by exists c, lg.
Defined.

End ConfigSimpleOutput.

(** ** The server bootstrap when [print] may raise *)
Module WebServerOutput.
Import Py WebServer.
Local Open Scope py_scope.

Section ServerOutput.
Context `{Stdout}.
Variable int_of_str : string -> option Z.

Lemma print_all_written {S} (ls : list line) (s : S) :
  print_all ls s
  = (match (written ls).2 with Some e => inl e | None => inr tt end,
     s, (written ls).1).
Proof.
  induction ls as [| l ls IH]; [reflexivity |].
  cbn [print_all written]. unfold bind, print.
  destruct (stdout_rejects l); [reflexivity |].
  rewrite IH. by destruct (written ls) as [o [e |]].
Qed.

Lemma written_app (ls ls' : list line) :
  written (ls ++ ls')
  = match written ls with
    | (o, Some e) => (o, Some e)
    | (o, None) => let '(o', r) := written ls' in (o ++ o', r)
    end.
Proof.
  induction ls as [| l ls IH]; simpl.
  - destruct (written ls'); reflexivity.
  - destruct (stdout_rejects l); [reflexivity |]. rewrite IH.
    destruct (written ls) as [o [e |]]; [reflexivity |].
    destruct (written ls'); reflexivity.
Qed.

Lemma written_accepted (ls : list line) :
  (written ls).2 = None
  <-> Forall (fun l => stdout_rejects l = None) ls.
Proof.
  induction ls as [| l ls IH]; cbn [written]; [by split |].
  destruct (stdout_rejects l) eqn:Hl.
  - split; [done |]. intros [Hl' _]%Forall_cons. congruence.
  - destruct (written ls) as [o r]. cbn in *. rewrite IH.
    split; [by constructor | by intros [_ ?]%Forall_cons].
Qed.

Lemma written_all (ls : list line) :
  (written ls).2 = None -> (written ls).1 = ls.
Proof.
  induction ls as [| l ls IH]; cbn [written]; [done |].
  destruct (stdout_rejects l); [done |].
  destruct (written ls) as [o r]. cbn in *. intros Hr. by rewrite IH.
Qed.

(** The body of the [try], step by step. *)
Lemma startup_eq (w : Host) (log : list effect) :
  startup int_of_str w log
  = match import_app w with
    | Some e => (inl e, log ++ [Import "api.index"], [])
    | None =>
        match import_uvicorn w with
        | Some e => (inl e, log ++ [Import "api.index"; Import "uvicorn"], [])
        | None =>
            match port_of int_of_str w with
            | inl e =>
                (inl e, log ++ [Import "api.index"; Import "uvicorn"], [])
            | inr p =>
                match written (banner (is_production w) p ++ pointers) with
                | (o, Some e) =>
                    (inl e, log ++ [Import "api.index"; Import "uvicorn"], o)
                | (o, None) =>
                    (match uvicorn_run w (server_args w p) with
                     | Some e => inl e
                     | None => inr tt
                     end,
                     log ++ [Import "api.index"; Import "uvicorn";
                             UvicornRun (server_args w p)],
                     o)
                end
            end
        end
    end.
Proof.
  unfold startup, bind, attempt, resolve_port, lift.
  destruct (import_app w); [reflexivity |].
  destruct (import_uvicorn w); [by rewrite <- app_assoc |].
  destruct (port_of int_of_str w) as [e | p]; [by rewrite <- app_assoc |].
  rewrite !print_all_written, written_app.
  destruct (written (banner (is_production w) p)) as [o [e |]];
    [by rewrite <- app_assoc, app_nil_r |].
  destruct (written pointers) as [o' [e |]]; cbn [fst snd app].
  - by rewrite <- app_assoc.
  - by rewrite <- !app_assoc, app_nil_r.
Qed.

(** The [try] statement around it: a handler prints its diagnostic as far
    as the standard output takes it, and exits if it took it all. *)
Lemma main_eq (w : Host) (log : list effect) :
  main int_of_str w log
  = match startup int_of_str w log with
    | (inr _, s, out) => (inr tt, s, out)
    | (inl e, s, out) =>
        if is_Exception (class_of e) then
          (match (written (diagnostic e)).2 with
           | Some e' => inl e'
           | None => inl (SysExit 1)
           end,
           s, out ++ (written (diagnostic e)).1)
        else (inl e, s, out)
    end.
Proof.
  unfold main, try_excepts.
  destruct (startup int_of_str w log) as [[[e | []] s] out]; [| reflexivity].
  cbn [handler_for]. unfold diagnostic.
  destruct (is_ImportError (class_of e)) eqn:Himp.
  - assert (is_Exception (class_of e) = true) as ->
      by (by destruct (class_of e)).
    unfold on_import_error, bind, print, raise. cbn [written].
    destruct (stdout_rejects [Lit "❌ 导入错误: "; FExn e]);
      [cbn; by rewrite ?app_nil_r |].
    destruct (stdout_rejects
                [Lit "请确保已安装所有依赖: pip install -r requirements.txt"]);
      cbn; by rewrite ?app_nil_r.
  - destruct (is_Exception (class_of e)); [| reflexivity].
    unfold on_exception, bind, print, raise. cbn [written].
    destruct (stdout_rejects [Lit "❌ 启动失败: "; FExn e]);
      cbn; by rewrite ?app_nil_r.
Qed.

(** When the server is started, everything before it went through. *)
Lemma served_started (w : Host) :
  served (main int_of_str w []).1.2 <> [] ->
  exists p out',
    import_app w = None /\ import_uvicorn w = None
    /\ port_of int_of_str w = inr p
    /\ (written (banner (is_production w) p ++ pointers)).2 = None
    /\ (main int_of_str w []).1.2
       = [Import "api.index"; Import "uvicorn"; UvicornRun (server_args w p)]
    /\ (main int_of_str w []).2 = (banner (is_production w) p ++ pointers) ++ out'.
Proof.
  rewrite main_eq, startup_eq.
  destruct (import_app w) as [e |];
    [by destruct (is_Exception (class_of e)) |].
  destruct (import_uvicorn w) as [e |];
    [by destruct (is_Exception (class_of e)) |].
  destruct (port_of int_of_str w) as [e | p];
    [by destruct (is_Exception (class_of e)) |].
  pose proof (written_all (banner (is_production w) p ++ pointers)) as Hall.
  destruct (written (banner (is_production w) p ++ pointers)) as [o [e |]]
    eqn:Hw.
  { by destruct (is_Exception (class_of e)). }
  cbn [fst snd] in Hall. rewrite (Hall eq_refl). intros _.
  exists p. rewrite Hw.
  destruct (uvicorn_run w (server_args w p)) as [e |];
    [destruct (is_Exception (class_of e)) |].
  - by exists (written (diagnostic e)).1.
  - exists []. by rewrite app_nil_r.
  - exists []. by rewrite app_nil_r.
Qed.

Lemma started_served (w : Host) (p : Z) :
  import_app w = None -> import_uvicorn w = None ->
  port_of int_of_str w = inr p ->
  Forall (fun l => stdout_rejects l = None)
    (banner (is_production w) p ++ pointers) ->
  (main int_of_str w []).1.2
  = [Import "api.index"; Import "uvicorn"; UvicornRun (server_args w p)].
Proof.
  intros Happ Huv Hport Hlines%written_accepted.
  rewrite main_eq, startup_eq, Happ, Huv, Hport.
  destruct (written (banner (is_production w) p ++ pointers)) as [o r].
  cbn in Hlines. subst r.
  destruct (uvicorn_run w (server_args w p)) as [e |]; [| reflexivity].
  by destruct (is_Exception (class_of e)).
Qed.

(** A step before the banner raises: the run ends in the handler for that
    exception, or with the exception itself when no clause takes it. *)
Lemma main_early (w : Host) (e : exn) (s : list effect) :
  startup int_of_str w [] = (inl e, s, []) ->
  main int_of_str w []
  = if is_Exception (class_of e) then
      (match (written (diagnostic e)).2 with
       | Some e' => inl e'
       | None => inl (SysExit 1)
       end,
       s, (written (diagnostic e)).1)
    else (inl e, s, []).
Proof. intros Hbody. by rewrite main_eq, Hbody. Qed.

Lemma served_In (a : run_args) (log : list effect) :
  In (UvicornRun a) log -> In a (served log).
Proof.
  induction log as [| f log IH]; [done |].
  intros [-> | Hin]; [by left |].
  unfold served. cbn [omap list_omap]. destruct f; [| right]; by apply IH.
Qed.

Lemma written_Forall (ls : list line) :
  Forall (fun l => stdout_rejects l = None) ls -> written ls = (ls, None).
Proof.
  intros Hr%written_accepted. pose proof (written_all ls Hr) as Hls.
  destruct (written ls) as [o r]. cbn in *. by subst.
Qed.

(** C6, as the code has it.  The two [except] clauses go by the class
    of the exception.  An [ImportError], from importing the application or
    from any later step, is reported with the hint to install the
    dependencies, and the process ends with status 1.  Any other
    [Exception] raised during startup, an import that fails for another
    reason included, is reported without the hint and ends it with status
    1.  Both suppose that the standard output takes the lines of the
    diagnostic.  What is no [Exception] passes through [main] with no
    diagnostic, and [sys.exit(n)] ends the process with status [n].  When
    the server returns, [main] returns and the status is 0.  Nothing is
    tried twice: the two imports and the server start happen at most once
    each, in that order. *)
Theorem bootstrap_exit_codes (w : Host) :
  (forall e,
     import_app w = Some e -> is_ImportError (class_of e) = true ->
     Forall (fun l => stdout_rejects l = None)
       [ [Lit "❌ 导入错误: "; FExn e];
         [Lit "请确保已安装所有依赖: pip install -r requirements.txt"] ] ->
     main int_of_str w []
     = (inl (SysExit 1), [Import "api.index"],
        [ [Lit "❌ 导入错误: "; FExn e];
          [Lit "请确保已安装所有依赖: pip install -r requirements.txt"] ])
     /\ exit_status (main int_of_str w []).1.1 = Some 1%Z)
  /\ (forall e s out,
        startup int_of_str w [] = (inl e, s, out) ->
        is_Exception (class_of e) = true ->
        Forall (fun l => stdout_rejects l = None)
          (if is_ImportError (class_of e) then
             [ [Lit "❌ 导入错误: "; FExn e];
               [Lit "请确保已安装所有依赖: pip install -r requirements.txt"] ]
           else [ [Lit "❌ 启动失败: "; FExn e] ]) ->
        main int_of_str w []
        = (inl (SysExit 1), s,
           out ++ (if is_ImportError (class_of e) then
                     [ [Lit "❌ 导入错误: "; FExn e];
                       [Lit "请确保已安装所有依赖: pip install -r requirements.txt"] ]
                   else [ [Lit "❌ 启动失败: "; FExn e] ]))
        /\ exit_status (main int_of_str w []).1.1 = Some 1%Z)
  /\ (forall e s out,
        startup int_of_str w [] = (inl e, s, out) ->
        is_Exception (class_of e) = false ->
        main int_of_str w [] = (inl e, s, out)
        /\ forall n, e = SysExit n ->
                     exit_status (main int_of_str w []).1.1 = Some n)
  /\ (forall p,
        import_app w = None -> import_uvicorn w = None ->
        port_of int_of_str w = inr p ->
        Forall (fun l => stdout_rejects l = None)
          (banner (is_production w) p ++ pointers) ->
        uvicorn_run w (server_args w p) = None ->
        main int_of_str w []
        = (inr tt,
           [Import "api.index"; Import "uvicorn"; UvicornRun (server_args w p)],
           banner (is_production w) p ++ pointers)
        /\ exit_status (main int_of_str w []).1.1 = Some 0%Z)
  /\ exists p,
      (main int_of_str w []).1.2 `prefix_of`
        [Import "api.index"; Import "uvicorn"; UvicornRun (server_args w p)].
Proof.
  assert (forall e s out,
            startup int_of_str w [] = (inl e, s, out) ->
            is_Exception (class_of e) = true ->
            Forall (fun l => stdout_rejects l = None) (diagnostic e) ->
            main int_of_str w [] = (inl (SysExit 1), s, out ++ diagnostic e))
    as Hcaught.
  { intros e s out Hbody Hexc Haccepts.
    by rewrite main_eq, Hbody, Hexc, (written_Forall _ Haccepts). }
  split; [| split; [| split; [| split]]].
  - intros e Happ Himp Haccepts.
    rewrite (Hcaught e [Import "api.index"] []).
    + unfold diagnostic. by rewrite Himp.
    + by rewrite startup_eq, Happ.
    + by destruct (class_of e).
    + unfold diagnostic. by rewrite Himp.
  - intros e s out Hbody Hexc Haccepts.
    by rewrite (Hcaught e s out Hbody Hexc Haccepts).
  - intros e s out Hbody Hexc. rewrite main_eq, Hbody, Hexc.
    split; [done | by intros n ->].
  - intros p Happ Huv Hport Haccepts Hrun.
    by rewrite main_eq, startup_eq, Happ, Huv, Hport,
      (written_Forall _ Haccepts), Hrun.
  - rewrite main_eq, startup_eq.
    destruct (import_app w) as [e |].
    { exists 0%Z. destruct (is_Exception (class_of e)); cbn; by eexists. }
    destruct (import_uvicorn w) as [e |].
    { exists 0%Z. destruct (is_Exception (class_of e)); cbn; by eexists. }
    destruct (port_of int_of_str w) as [e | p].
    { exists 0%Z. destruct (is_Exception (class_of e)); cbn; by eexists. }
    exists p.
    destruct (written (banner (is_production w) p ++ pointers)) as [o [e |]].
    { destruct (is_Exception (class_of e)); cbn; by eexists. }
    destruct (uvicorn_run w (server_args w p)) as [e |];
      [destruct (is_Exception (class_of e)) |]; cbn; by eexists.
Qed.

(** C8. Production mode is the presence of RAILWAY_ENVIRONMENT, whatever
    its value, and it shows in two places only.  Whenever [main] invokes
    the server it does so once, after the two imports, on host 0.0.0.0 and
    the resolved port, with live reload off when the variable is present
    and on when it is absent, and the output began with the banner of that
    mode (the production one exactly when the variable is present)
    followed by the three lines common to both.  The server is invoked
    as soon as the imports succeed, the port is an integer and the
    standard output takes these five lines.  Resolution of the settings
    does not read the variable: setting it to any value or unsetting it
    leaves [_load_initial_config], and the outcome of the resolution
    chain, as they were. *)
Theorem deployment_mode `{P : ConfigSimple.Pydantic} (w : Host)
    (cw : ConfigSimple.World) (self : ConfigSimple.Config) (v : string) :
  (forall a,
     In (UvicornRun a) (main int_of_str w []).1.2 ->
     exists p out',
       port_of int_of_str w = inr p
       /\ a = {| app := "api.index:app";
                 host := "0.0.0.0";
                 port := p;
                 reload := match os_environ w !! "RAILWAY_ENVIRONMENT" with
                           | Some _ => false
                           | None => true
                           end;
                 log_level := "info";
                 access_log := true |}
       /\ (main int_of_str w []).1.2
          = [Import "api.index"; Import "uvicorn"; UvicornRun a]
       /\ (main int_of_str w []).2
          = match os_environ w !! "RAILWAY_ENVIRONMENT" with
            | Some _ =>
                [ [Lit "🚀 启动 MeetSpot 生产服务器 (Railway)..."];
                  [Lit "📍 服务端口: "; FInt p] ]
            | None =>
                [ [Lit "🚀 启动 MeetSpot 本地开发服务器..."];
                  [Lit "📍 服务地址: http://localhost:"; FInt p] ]
            end
            ++ [ [Lit "📚 API文档: /docs"];
                 [Lit "🔧 健康检查: /health"];
                 [Lit "=================================================="] ]
            ++ out')
  /\ (forall p,
        import_app w = None ->
        import_uvicorn w = None ->
        port_of int_of_str w = inr p ->
        Forall (fun l => stdout_rejects l = None)
          (match os_environ w !! "RAILWAY_ENVIRONMENT" with
           | Some _ =>
               [ [Lit "🚀 启动 MeetSpot 生产服务器 (Railway)..."];
                 [Lit "📍 服务端口: "; FInt p] ]
           | None =>
               [ [Lit "🚀 启动 MeetSpot 本地开发服务器..."];
                 [Lit "📍 服务地址: http://localhost:"; FInt p] ]
           end
           ++ [ [Lit "📚 API文档: /docs"];
                [Lit "🔧 健康检查: /health"];
                [Lit "=================================================="] ]) ->
        exists a, In (UvicornRun a) (main int_of_str w []).1.2)
  /\ ConfigSimple._load_initial_config
       (ConfigSimple.with_environ cw
          (<["RAILWAY_ENVIRONMENT" := v]> (ConfigSimple.environ cw))) self
     = ConfigSimple._load_initial_config cw self
  /\ ConfigSimple._load_initial_config
       (ConfigSimple.with_environ cw
          (delete "RAILWAY_ENVIRONMENT" (ConfigSimple.environ cw))) self
     = ConfigSimple._load_initial_config cw self
  /\ ConfigSimple.resolution
       (ConfigSimple.with_environ cw
          (<["RAILWAY_ENVIRONMENT" := v]> (ConfigSimple.environ cw)))
     = ConfigSimple.resolution cw
  /\ ConfigSimple.resolution
       (ConfigSimple.with_environ cw
          (delete "RAILWAY_ENVIRONMENT" (ConfigSimple.environ cw)))
     = ConfigSimple.resolution cw.
Proof.
  assert (forall p,
            match os_environ w !! "RAILWAY_ENVIRONMENT" with
            | Some _ =>
                [ [Lit "🚀 启动 MeetSpot 生产服务器 (Railway)..."];
                  [Lit "📍 服务端口: "; FInt p] ]
            | None =>
                [ [Lit "🚀 启动 MeetSpot 本地开发服务器..."];
                  [Lit "📍 服务地址: http://localhost:"; FInt p] ]
            end
            ++ [ [Lit "📚 API文档: /docs"];
                 [Lit "🔧 健康检查: /health"];
                 [Lit "=================================================="] ]
            = banner (is_production w) p ++ pointers) as Hlines.
  { intros p. unfold banner, is_production, pointers.
    by destruct (os_environ w !! "RAILWAY_ENVIRONMENT"). }
  split; [| split].
  - intros a Hin.
    destruct (served_started w) as (p & out' & _ & _ & Hport & _ & Hlog & Hout).
    { apply served_In in Hin. by destruct (served _). }
    rewrite Hlog in Hin.
    destruct Hin as [? | [? | [[= <-] | []]]]; [done | done |].
    exists p, out'. rewrite app_assoc, Hlines.
    split; [done |]. split; [| done].
    unfold server_args, is_production.
    by destruct (os_environ w !! "RAILWAY_ENVIRONMENT").
  - intros p Happ Huv Hport Haccepts. rewrite Hlines in Haccepts.
    rewrite (started_served w p Happ Huv Hport Haccepts).
    eexists. right. right. by left.
  - repeat split.
    + apply ConfigSimpleOutput.load_initial_config_environ;
        by rewrite lookup_insert_ne.
    + apply ConfigSimpleOutput.load_initial_config_environ;
        by rewrite lookup_delete_ne.
    + apply ConfigSimpleOutput.resolution_agrees;
        by rewrite lookup_insert_ne.
    + apply ConfigSimpleOutput.resolution_agrees;
        by rewrite lookup_delete_ne.
Qed.

(** X9. The server is started exactly when both imports succeed, the port
    is an integer and the standard output takes the banner and the three
    lines after it.  When an import or the port fails, no banner is
    printed and the server is not started: the output is what the
    standard output takes of the diagnostic for the exception of that very
    step, the first one to fail, and nothing at all when no handler takes
    it. *)
Theorem server_started_iff (w : Host) :
  (served (main int_of_str w []).1.2 <> []
   <-> exists p,
         import_app w = None /\ import_uvicorn w = None
         /\ port_of int_of_str w = inr p
         /\ Forall (fun l => stdout_rejects l = None)
              (banner (is_production w) p ++ pointers))
  /\ (forall e,
        import_app w = Some e
        \/ (import_app w = None /\ import_uvicorn w = Some e)
        \/ (import_app w = None /\ import_uvicorn w = None
            /\ port_of int_of_str w = inl e) ->
        served (main int_of_str w []).1.2 = []
        /\ (main int_of_str w []).2
           = if is_Exception (class_of e) then (written (diagnostic e)).1
             else []).
Proof.
  split.
  - split.
    + intros (p & out' & Happ & Huv & Hport & Hw & _)%served_started.
      exists p. by rewrite <- written_accepted.
    + intros (p & Happ & Huv & Hport & Hlines).
      by rewrite (started_served w p Happ Huv Hport Hlines).
  - intros e Hfails.
    assert (exists s, startup int_of_str w [] = (inl e, s, [])
                      /\ served s = []) as (s & Hbody & Hs).
    { rewrite startup_eq.
      destruct Hfails as [-> | [[-> ->] | (-> & -> & ->)]]; eauto. }
    rewrite (main_early w e s Hbody).
    by destruct (is_Exception (class_of e)).
Qed.

End ServerOutput.

(** *** At the concrete environments, on a standard output that takes
    every line *)

Lemma bootstrap_exit_codes_samples :
  exit_status (@main stdout_accepts int_decimal host_no_fastapi []).1.1
  = Some 1%Z
  /\ exit_status (@main stdout_accepts int_decimal host_bad_port []).1.1
     = Some 1%Z
  /\ exit_status (@main stdout_accepts int_decimal host_exit3 []).1.1
     = Some 3%Z
  /\ exit_status (@main stdout_accepts int_decimal host_local []).1.1
     = Some 0%Z.
Proof.
  destruct (@bootstrap_exit_codes stdout_accepts int_decimal host_no_fastapi)
    as (Himport & _ & _ & _ & _).
  destruct (@bootstrap_exit_codes stdout_accepts int_decimal host_bad_port)
    as (_ & Hother & _ & _ & _).
  destruct (@bootstrap_exit_codes stdout_accepts int_decimal host_exit3)
    as (_ & _ & Hpass & _ & _).
  destruct (@bootstrap_exit_codes stdout_accepts int_decimal host_local)
    as (_ & _ & _ & Hreturn & _).
  split; [| split; [| split]].
  - eapply Himport; [reflexivity | reflexivity | by repeat constructor].
  - eapply Hother; [reflexivity | reflexivity | by repeat constructor].
  - eapply Hpass; reflexivity.
  - apply (Hreturn 11024%Z);
      [reflexivity | reflexivity | reflexivity | by repeat constructor
      | reflexivity].
Defined.

(** The claim C6 as stated fails here.  On a standard output that
    takes every line: importing the application fails with a
    [RuntimeError], and the diagnostic printed does not name the
    dependencies; the server leaves by [sys.exit(3)], an exception during
    startup other than an import failure, and the process ends with status
    3 after no diagnostic at all.  On a standard output in ASCII: a
    dependency is missing, and the first [print] of the handler raises, so
    that no diagnostic is printed and [sys.exit(1)] is not reached. *)
Lemma startup_failures_differ :
  import_app host_broken_app
  = Some (Raised RuntimeError "settings are incomplete")
  /\ @main stdout_accepts int_decimal host_broken_app []
     = (inl (SysExit 1), [Import "api.index"],
        [[Lit "❌ 启动失败: ";
          FExn (Raised RuntimeError "settings are incomplete")]])
  /\ uvicorn_run host_exit3 (server_args host_exit3 11024) = Some (SysExit 3)
  /\ @main stdout_accepts int_decimal host_exit3 []
     = (inl (SysExit 3),
        [ Import "api.index"; Import "uvicorn";
          UvicornRun
            {| app := "api.index:app";
               host := "0.0.0.0";
               port := 11024;
               reload := true;
               log_level := "info";
               access_log := true |} ],
        [ [Lit "🚀 启动 MeetSpot 本地开发服务器..."];
          [Lit "📍 服务地址: http://localhost:"; FInt 11024];
          [Lit "📚 API文档: /docs"];
          [Lit "🔧 健康检查: /health"];
          [Lit "=================================================="] ])
  /\ exit_status (@main stdout_accepts int_decimal host_exit3 []).1.1
     = Some 3%Z
  /\ import_app host_no_fastapi
     = Some (Raised ModuleNotFoundError "No module named 'fastapi'")
  /\ @main stdout_ascii int_decimal host_no_fastapi []
     = (inl (Unencodable "ascii"), [Import "api.index"], []).
Proof. repeat split; reflexivity. Qed.

Lemma deployment_mode_railway :
  (exists a, In (UvicornRun a)
               (@main stdout_accepts int_decimal host_railway []).1.2)
  /\ (@main stdout_accepts int_decimal host_railway []).1.2
     = [ Import "api.index"; Import "uvicorn";
         UvicornRun
           {| app := "api.index:app";
              host := "0.0.0.0";
              port := 8080;
              reload := false;
              log_level := "info";
              access_log := true |} ].
Proof.
  destruct (@deployment_mode stdout_accepts int_decimal
              ConfigSimple.pydantic_strict host_railway
              ConfigSimple.world_xyz ConfigSimple.unbuilt "production")
    as (Hargs & Hstarted & _).
  destruct (Hstarted 8080%Z) as [a Hin];
    [reflexivity | reflexivity | reflexivity | by repeat constructor |].
  split; [by exists a |].
  destruct (Hargs a Hin) as (p & out' & Hport & -> & Hlog & _).
  injection Hport as <-. exact Hlog.
Defined.

Lemma server_started_iff_broken_app :
  served (@main stdout_accepts int_decimal host_broken_app []).1.2 = []
  /\ (@main stdout_accepts int_decimal host_broken_app []).2
     = [ [Lit "❌ 启动失败: ";
          FExn (Raised RuntimeError "settings are incomplete")] ].
Proof.
  destruct (@server_started_iff stdout_accepts int_decimal host_broken_app)
    as [_ Hfails].
  apply (Hfails (Raised RuntimeError "settings are incomplete")).
  by left.
Defined.

End WebServerOutput.
